(** * rc-visualizer-backend: the three route handlers of [server.js]

    A shallow embedding of the Express server: JavaScript strings and the
    string methods the handlers call, JSON values, the Ajv validator compiled
    from the [/analyze] schema, and the handlers [/analyze], [/mindmap] and
    [/solve] as functions that return the HTTP response together with the
    trace of calls they made to the outside world. *)

From Stdlib Require Import List NArith ZArith String Ascii Bool Lia.
From Stdlib Require DecimalString.
Import ListNotations.

Set Warnings "-register-all".

(** ** JavaScript strings *)

(** A JavaScript string is a sequence of UTF-16 code units. *)
Definition jsstring := list N.

(** An ASCII literal as a JavaScript string. *)
Definition js (s : string) : jsstring :=
  map N_of_ascii (list_ascii_of_string s).

(** The same, with every apostrophe of the literal standing for a double
    quote (code unit 34), to write JSON text. *)
Definition jsq (s : string) : jsstring :=
  map (fun c => if N.eqb c 39 then 34%N else c) (js s).

Definition LF : jsstring := [10%N].

Fixpoint str_eqb (a b : jsstring) : bool :=
  match a, b with
  | [], [] => true
  | x :: a', y :: b' => N.eqb x y && str_eqb a' b'
  | _, _ => false
  end.

(** [String.prototype.startsWith]: [p] is a prefix of [s]. *)
Fixpoint startsWith (p s : jsstring) : bool :=
  match p, s with
  | [], _ => true
  | x :: p', y :: s' => N.eqb x y && startsWith p' s'
  | _ :: _, [] => false
  end.

(** WhiteSpace and LineTerminator code units of ECMAScript, the ones
    [String.prototype.trim] removes. *)
Definition isWhiteSpace (c : N) : bool :=
  ((9 <=? c) && (c <=? 13) || (c =? 32) || (c =? 0xA0) || (c =? 0x1680)
   || (0x2000 <=? c) && (c <=? 0x200A) || (c =? 0x2028) || (c =? 0x2029)
   || (c =? 0x202F) || (c =? 0x205F) || (c =? 0x3000) || (c =? 0xFEFF))%N.

Fixpoint trimStart (s : jsstring) : jsstring :=
  match s with
  | [] => []
  | c :: t => if isWhiteSpace c then trimStart t else s
  end.

Definition trimEnd (s : jsstring) : jsstring := rev (trimStart (rev s)).

(** [s.trim()] *)
Definition trim (s : jsstring) : jsstring := trimEnd (trimStart s).

(** The first alternative of [alts] that matches at the head of [s], as the
    number of code units it consumes: a regular expression [a|b] of literals
    tries its alternatives from left to right. *)
Fixpoint match_alt (alts : list jsstring) (s : jsstring) : option nat :=
  match alts with
  | [] => None
  | p :: rest => if startsWith p s then Some (List.length p) else match_alt rest s
  end.

(** [s.replace(/a|b/g, "")] for literal alternatives: scan from the left; at
    each position where an alternative matches, delete the match and go on
    after it; otherwise keep the code unit.  [skip] counts the code units of
    the current match still to be deleted. *)
Fixpoint replace_all (alts : list jsstring) (skip : nat) (s : jsstring)
  : jsstring :=
  match s with
  | [] => []
  | c :: t =>
      match skip with
      | S k => replace_all alts k t
      | O =>
          match match_alt alts s with
          | Some (S k) => replace_all alts k t
          | _ => c :: replace_all alts 0 t
          end
      end
  end.

Definition fence : jsstring := js "```".
Definition fence_json : jsstring := js "```json".
Definition fence_html : jsstring := js "```html".

(** [responseText.replace(/```json|```/g, "")] *)
Definition replace_json_fences (s : jsstring) : jsstring :=
  replace_all [fence_json; fence] 0 s.

(** [responseText.replace(/```html|```/g, "")] *)
Definition replace_html_fences (s : jsstring) : jsstring :=
  replace_all [fence_html; fence] 0 s.

(** [s.indexOf(p)], counting from position [i]: the least index where [p]
    occurs, or -1. *)
Fixpoint indexOf_from (p s : jsstring) (i : Z) : Z :=
  if startsWith p s then i
  else match s with
       | [] => -1
       | _ :: t => indexOf_from p t (i + 1)
       end.

Definition indexOf (s p : jsstring) : Z := indexOf_from p s 0.

(** [s.lastIndexOf(p)], counting from position [i]: the greatest index where
    [p] occurs, or -1. *)
Fixpoint lastIndexOf_from (p s : jsstring) (i : Z) : Z :=
  match s with
  | [] => if startsWith p [] then i else -1
  | _ :: t =>
      let r := lastIndexOf_from p t (i + 1) in
      if r =? -1 then (if startsWith p s then i else -1) else r
  end%Z.

Definition lastIndexOf (s p : jsstring) : Z := lastIndexOf_from p s 0.

(** [s.slice(start, end)]: negative arguments count from the end, both are
    clamped to the length, and the result is empty when the clamped start is
    not below the clamped end. *)
Definition slice (s : jsstring) (start end_ : Z) : jsstring :=
  let len := Z.of_nat (List.length s) in
  let from := if (start <? 0)%Z then Z.max (len + start) 0 else Z.min start len in
  let to := if (end_ <? 0)%Z then Z.max (len + end_) 0 else Z.min end_ len in
  firstn (Z.to_nat (to - from)) (skipn (Z.to_nat from) s).

(** Decimal digits of a non-negative integer, as [String(n)] prints it. *)
Definition decimal (n : N) : jsstring :=
  js (DecimalString.NilZero.string_of_uint (N.to_uint n)).

(** ** JavaScript values that come from JSON *)

(** A number is kept as the text [String(n)] prints for it: the handlers do
    no arithmetic on the numbers of a request or of a reply, they only test
    them for truthiness and paste them into a prompt. *)
Inductive json : Type :=
| JNull
| JBool (b : bool)
| JNum (repr : jsstring)
| JStr (s : jsstring)
| JArr (elems : list json)
| JObj (props : list (jsstring * json)).

(** A plain object, as its own properties in enumeration order. *)
Definition object := list (jsstring * json).

(** A value or a thrown [Error] with its [message]. *)
Inductive result (A : Type) : Type :=
| Ok (a : A)
| Throw (message : jsstring).
Arguments Ok {A} a.
Arguments Throw {A} message.

(** [o[k]], which is [undefined], here [None], when [o] has no such
    property. *)
Fixpoint Get (o : object) (k : jsstring) : option json :=
  match o with
  | [] => None
  | (k', v) :: rest => if str_eqb k' k then Some v else Get rest k
  end.

(** A value read from the request body; [None] is [undefined]. *)
Definition value := option json.

(** ToBoolean, as [!x] and [||] apply it. *)
Definition ToBoolean (v : value) : bool :=
  match v with
  | None => false
  | Some JNull => false
  | Some (JBool b) => b
  | Some (JNum r) => negb (str_eqb r (js "0") || str_eqb r (js "NaN"))
  | Some (JStr s) => negb (str_eqb s [])
  | Some (JArr _) => true
  | Some (JObj _) => true
  end.

Definition TypeError_primitive : jsstring :=
  js "Cannot convert object to primitive value".

(** ToString, as a template literal applies it to [${x}].  An array prints
    its elements joined by commas, with [null] printed as nothing.  A plain
    object prints through [Object.prototype.toString], unless an own property
    [toString] hides it: a value from JSON is never callable, [valueOf] gives
    back the object, and the conversion throws. *)
Fixpoint ToString (v : json) : result jsstring :=
  match v with
  | JNull => Ok (js "null")
  | JBool true => Ok (js "true")
  | JBool false => Ok (js "false")
  | JNum r => Ok r
  | JStr s => Ok s
  | JArr elems =>
      (fix commas (sep : jsstring) (l : list json) : result jsstring :=
         match l with
         | [] => Ok []
         | x :: t =>
             match (match x with JNull => Ok [] | _ => ToString x end) with
             | Throw m => Throw m
             | Ok sx =>
                 match commas (js ",") t with
                 | Throw m => Throw m
                 | Ok st => Ok (sep ++ sx ++ st)
                 end
             end
         end) [] elems
  | JObj props =>
      match Get props (js "toString") with
      | Some _ => Throw TypeError_primitive
      | None => Ok (js "[object Object]")
      end
  end.

Definition ToString_value (v : value) : result jsstring :=
  match v with
  | None => Ok (js "undefined")
  | Some j => ToString j
  end.

(** Deep equality of two values, which Ajv uses for [enum]. *)
Fixpoint json_eqb (a b : json) : bool :=
  match a, b with
  | JNull, JNull => true
  | JBool x, JBool y => Bool.eqb x y
  | JNum x, JNum y => str_eqb x y
  | JStr x, JStr y => str_eqb x y
  | JArr xs, JArr ys =>
      (fix go (xs ys : list json) : bool :=
         match xs, ys with
         | [], [] => true
         | x :: xs', y :: ys' => json_eqb x y && go xs' ys'
         | _, _ => false
         end) xs ys
  | JObj ps, JObj qs =>
      Nat.eqb (List.length ps) (List.length qs)
      && (fix go (ps : object) : bool :=
            match ps with
            | [] => true
            | (k, v) :: ps' =>
                match Get qs k with
                | Some w => json_eqb v w
                | None => false
                end && go ps'
            end) ps
  | _, _ => false
  end.

(** ** JSON Schema and the validator Ajv compiles from it *)

Inductive JType : Type := TString | TArray | TObject.

(** The keywords [server.js] uses.  An absent [properties] or [required] is
    the empty list, an absent [additionalProperties] is [true]. *)
Inductive Schema : Type :=
  MkSchema (type : option JType)
           (enum : option (list json))
           (properties : list (jsstring * Schema))
           (items : option Schema)
           (required : list jsstring)
           (additionalProperties : bool).

Definition type_string : Schema :=
  MkSchema (Some TString) None [] None [] true.

Definition string_enum (allowed : list jsstring) : Schema :=
  MkSchema (Some TString) (Some (map JStr allowed)) [] None [] true.

Definition type_array (items : Schema) : Schema :=
  MkSchema (Some TArray) None [] (Some items) [] true.

Definition type_object (properties : list (jsstring * Schema))
  (required : list jsstring) (additionalProperties : bool) : Schema :=
  MkSchema (Some TObject) None properties None required additionalProperties.

(** [const schema = { ... }] *)
Definition schema : Schema :=
  type_object
    [ (js "vocabulary",
        type_array
          (type_object
             [ (js "word", type_string); (js "meaning", type_string) ]
             [ js "word"; js "meaning" ] true));
      (js "title", type_string);
      (js "main_idea",
        type_object
          [ (js "direct", type_string); (js "indirect", type_string) ]
          [ js "direct"; js "indirect" ] true);
      (js "facts_opinions_inferences",
        type_array
          (type_object
             [ (js "type", string_enum [ js "Fact"; js "Opinion"; js "Inference" ]);
               (js "text", type_string) ]
             [ js "type"; js "text" ] true));
      (js "transitions",
        type_array
          (type_object
             [ (js "src", type_string);
               (js "dest", type_string);
               (js "relation",
                 string_enum
                   [ js "logical"; js "contrastive"; js "sequential"; js "causal" ]) ]
             [ js "src"; js "dest"; js "relation" ] true));
      (js "keywords", type_array type_string);
      (js "purpose", type_string) ]
    [ js "vocabulary"; js "title"; js "main_idea";
      js "facts_opinions_inferences"; js "transitions"; js "keywords";
      js "purpose" ]
    false.

(** Ajv's error object: where in the data, where in the schema, which
    keyword failed and with which parameters. *)
Inductive Params : Type :=
| P_type (t : JType)
| P_missingProperty (k : jsstring)
| P_additionalProperty (k : jsstring)
| P_allowedValues (allowed : list json).

Record ErrorObject : Type := {
  instancePath : jsstring;
  schemaPath : jsstring;
  keyword : jsstring;
  params : Params
}.

Definition checkDataType (t : JType) (data : json) : bool :=
  match t, data with
  | TString, JStr _ => true
  | TArray, JArr _ => true
  | TObject, JObj _ => true
  | _, _ => false
  end.

Definition has_key (keys : list jsstring) (k : jsstring) : bool :=
  existsb (str_eqb k) keys.

(** The validation function Ajv generates, in its default mode: it stops at
    the first failure.  The type is checked first; then, on an object,
    [required], [additionalProperties] and the [properties] present, in the
    schema's order; on an array, [items] element by element; last [enum]. *)
Fixpoint first_error (s : Schema) (ipath spath : jsstring) (data : json)
  {struct s} : option ErrorObject :=
  match s with
  | MkSchema type enum properties items required additionalProperties =>
      let fail kw p :=
        Some {| instancePath := ipath; schemaPath := spath ++ js "/" ++ kw;
                keyword := kw; params := p |} in
      let typed :=
        match data with
        | JObj props =>
            match find (fun k => match Get props k with None => true | Some _ => false end)
                       required with
            | Some k => fail (js "required") (P_missingProperty k)
            | None =>
                match (if additionalProperties then None
                       else find (fun kv => negb (has_key (map fst properties) (fst kv)))
                                 props) with
                | Some kv => fail (js "additionalProperties") (P_additionalProperty (fst kv))
                | None =>
                    (fix each (ps : list (jsstring * Schema)) : option ErrorObject :=
                       match ps with
                       | [] => None
                       | (k, sub) :: ps' =>
                           match Get props k with
                           | None => each ps'
                           | Some x =>
                               match first_error sub (ipath ++ js "/" ++ k)
                                       (spath ++ js "/properties/" ++ k) x with
                               | Some e => Some e
                               | None => each ps'
                               end
                           end
                       end) properties
                end
            end
        | JArr elems =>
            match items with
            | None => None
            | Some sub =>
                (fix each (i : N) (l : list json) : option ErrorObject :=
                   match l with
                   | [] => None
                   | x :: l' =>
                       match first_error sub (ipath ++ js "/" ++ decimal i)
                               (spath ++ js "/items") x with
                       | Some e => Some e
                       | None => each (N.succ i) l'
                       end
                   end) 0%N elems
            end
        | _ => None
        end in
      match type with
      | Some t =>
          if checkDataType t data then
            match typed with
            | Some e => Some e
            | None =>
                match enum with
                | Some allowed =>
                    if existsb (json_eqb data) allowed then None
                    else fail (js "enum") (P_allowedValues allowed)
                | None => None
                end
            end
          else fail (js "type") (P_type t)
      | None =>
          match typed with
          | Some e => Some e
          | None =>
              match enum with
              | Some allowed =>
                  if existsb (json_eqb data) allowed then None
                  else fail (js "enum") (P_allowedValues allowed)
              | None => None
              end
          end
      end
  end.

(** [const validate = ajv.compile(schema)]: [validate(data)] gives the
    verdict and leaves the errors in [validate.errors]. *)
Definition validate_errors (data : json) : list ErrorObject :=
  match first_error schema [] (js "#") data with
  | Some e => [e]
  | None => []
  end.

Definition validate (data : json) : bool :=
  match validate_errors data with
  | [] => true
  | _ :: _ => false
  end.

(** ** The outside world *)

(** What the process is started with and what it calls: the three prompt
    templates of [./prompts/], the hosted model and [JSON.parse]. *)
Record Host : Type := {
  RC_ANALYSIS_PROMPT : jsstring;
  RC_MINDMAP_PROMPT : jsstring;
  RC_THOUGHT_SOLVER_PROMPT : jsstring;
  (** [(await model.generateContent(prompt)).response.text()]: what the
      model answers to a prompt, or the error of the call, during the
      request at hand; a handler calls the model at most once. *)
  model_text : jsstring -> result jsstring;
  JSON_parse : jsstring -> result json
}.

Inductive LogArg : Type :=
| LogText (s : jsstring)
| LogErrors (errs : list ErrorObject)
| LogError (message : jsstring).

(** The calls a handler makes, in the order it makes them. *)
Inductive Event : Type :=
| generateContent (prompt : jsstring)
| JSON_parse_call (text : jsstring)
| console_log (label : jsstring) (arg : LogArg)
| console_warn (label : jsstring) (arg : LogArg)
| console_error (label : jsstring) (arg : LogArg).

(** A computation that may throw and that records its calls. *)
Definition M (A : Type) : Type := (list Event * result A)%type.

Definition ret {A : Type} (a : A) : M A := ([], Ok a).

Definition bind {A B : Type} (m : M A) (f : A -> M B) : M B :=
  match m with
  | (t, Ok a) => let '(t', r) := f a in (t ++ t', r)
  | (t, Throw e) => (t, Throw e)
  end.

Definition lift {A : Type} (r : result A) : M A := ([], r).

Definition emit (e : Event) : M unit := ([e], Ok tt).

Declare Scope js_scope.
Delimit Scope js_scope with M.
Notation "x <- m ;; k" := (bind m (fun x => k))
  (at level 61, m at next level, right associativity) : js_scope.
Notation "m ;;; k" := (bind m (fun _ => k))
  (at level 61, right associativity) : js_scope.

(** ** Responses *)

Inductive Body : Type :=
| Json (j : json)
  (** [res.json({ error, validationErrors, rawOutput })] *)
| ValidationFailure (error : jsstring) (validationErrors : list ErrorObject)
    (rawOutput : json)
| Send (s : jsstring).

Record Response : Type := { status : Z; payload : Body }.

(** [res.status(code).json({ error: message })] *)
Definition error_response (code : Z) (message : jsstring) : Response :=
  {| status := code; payload := Json (JObj [ (js "error", JStr message) ]) |}.

(** [try { ... } catch (err) { console.error(label, err);
    res.status(500).json({ error: err.message }); }] *)
Definition try_catch (label : jsstring) (m : M Response)
  : list Event * Response :=
  match m with
  | (t, Ok r) => (t, r)
  | (t, Throw message) =>
      (t ++ [console_error label (LogError message)],
       error_response 500 message)
  end.

(** ** [server.js] *)

Definition robot : jsstring := [0xD83E; 0xDD16]%N.
Definition warning_sign : jsstring := [0x26A0; 0xFE0F]%N.
Definition cross_mark : jsstring := [0x274C]%N.

Section Server.

Variable host : Host.

Local Open Scope js_scope.

(** [async function generateWithModel(prompt)] *)
Definition generateWithModel (prompt : jsstring) : M jsstring :=
  emit (generateContent prompt) ;;;
  text <- lift (model_text host prompt) ;;
  ret (trim text).

(** [`${RC_ANALYSIS_PROMPT}\n\nPassage:\n${passage}`] *)
Definition analyze_prompt (passage_text : jsstring) : jsstring :=
  RC_ANALYSIS_PROMPT host ++ LF ++ LF ++ js "Passage:" ++ LF ++ passage_text.

(** [`${RC_MINDMAP_PROMPT}\n\nPassage:\n${passage}`] *)
Definition mindmap_prompt (passage_text : jsstring) : jsstring :=
  RC_MINDMAP_PROMPT host ++ LF ++ LF ++ js "Passage:" ++ LF ++ passage_text.

(** [`${RC_THOUGHT_SOLVER_PROMPT}\n\nPassage:\n${passage}\n\nQuestions:\n${combinedQuestions}`] *)
Definition solve_prompt (passage_text combined_text : jsstring) : jsstring :=
  RC_THOUGHT_SOLVER_PROMPT host ++ LF ++ LF ++ js "Passage:" ++ LF
  ++ passage_text ++ LF ++ LF ++ js "Questions:" ++ LF ++ combined_text.

(** [app.post("/analyze", ...)], from the body a parser made of the
    request; [analyze_request] below has the request without one. *)
Definition analyze (body : object) : list Event * Response :=
  try_catch (cross_mark ++ js " /analyze error:")
    (let passage := Get body (js "passage") in
     if negb (ToBoolean passage) then
       ret (error_response 400 (js "Passage is required"))
     else
       passage_text <- lift (ToString_value passage) ;;
       let prompt := analyze_prompt passage_text in
       responseText <- generateWithModel prompt ;;
       emit (console_log (robot ++ js " /analyze Gemini response:")
               (LogText responseText)) ;;;
       let cleanText := trim (replace_json_fences responseText) in
       let start := indexOf cleanText (js "{") in
       let end_ := lastIndexOf cleanText (js "}") in
       if (start =? -1)%Z || (end_ =? -1)%Z then
         ret (error_response 400 (js "No valid JSON found"))
       else
         let text := slice cleanText start (end_ + 1) in
         emit (JSON_parse_call text) ;;;
         parsed <- lift (JSON_parse host text) ;;
         let valid := validate parsed in
         if negb valid then
           emit (console_warn (warning_sign ++ js " Schema validation failed:")
                   (LogErrors (validate_errors parsed))) ;;;
           ret {| status := 422;
                  payload := ValidationFailure
                               (js "Response schema validation failed")
                               (validate_errors parsed) parsed |}
         else
           ret {| status := 200; payload := Json parsed |}).

(** [app.post("/mindmap", ...)], from the body a parser made of the
    request. *)
Definition mindmap (body : object) : list Event * Response :=
  try_catch (cross_mark ++ js " /mindmap error:")
    (let passage := Get body (js "passage") in
     if negb (ToBoolean passage) then
       ret (error_response 400 (js "Passage is required"))
     else
       passage_text <- lift (ToString_value passage) ;;
       let prompt := mindmap_prompt passage_text in
       responseText <- generateWithModel prompt ;;
       emit (console_log (robot ++ js " /mindmap Gemini response:")
               (LogText responseText)) ;;;
       let cleanHTML := trim (replace_html_fences responseText) in
       ret {| status := 200; payload := Send cleanHTML |}).

(** [questions.map((q, i) => `${i + 1}. ${q}`)], from index [i] on. *)
Fixpoint number_questions (i : N) (questions : list json)
  : result (list jsstring) :=
  match questions with
  | [] => Ok []
  | q :: rest =>
      match ToString q with
      | Throw m => Throw m
      | Ok q_text =>
          match number_questions (N.succ i) rest with
          | Throw m => Throw m
          | Ok lines => Ok ((decimal (i + 1) ++ js ". " ++ q_text) :: lines)
          end
      end
  end.

(** [lines.join(sep)] on an array of strings. *)
Fixpoint join (sep : jsstring) (lines : list jsstring) : jsstring :=
  match lines with
  | [] => []
  | [l] => l
  | l :: rest => l ++ sep ++ join sep rest
  end.

(** [Array.isArray(questions) && questions.length > 0
      ? questions.map(...).join("\n") : questions] *)
Definition combinedQuestions (questions : value) : result value :=
  match questions with
  | Some (JArr ((_ :: _) as qs)) =>
      match number_questions 0 qs with
      | Throw m => Throw m
      | Ok lines => Ok (Some (JStr (join LF lines)))
      end
  | _ => Ok questions
  end.

(** [app.post("/solve", ...)], from the body a parser made of the
    request. *)
Definition solve (body : object) : list Event * Response :=
  try_catch (cross_mark ++ js " /solve error:")
    (let passage := Get body (js "passage") in
     let questions := Get body (js "questions") in
     if negb (ToBoolean passage) || negb (ToBoolean questions) then
       ret (error_response 400 (js "Passage and questions are required"))
     else
       combined <- lift (combinedQuestions questions) ;;
       passage_text <- lift (ToString_value passage) ;;
       combined_text <- lift (ToString_value combined) ;;
       let prompt := solve_prompt passage_text combined_text in
       responseText <- generateWithModel prompt ;;
       emit (console_log (robot ++ js " /solve Gemini response:")
               (LogText responseText)) ;;;
       let cleanText := trim (replace_json_fences responseText) in
       let start := indexOf cleanText (js "{") in
       let end_ := lastIndexOf cleanText (js "}") in
       if (start =? -1)%Z || (end_ =? -1)%Z then
         ret (error_response 400 (js "No valid JSON found"))
       else
         let text := slice cleanText start (end_ + 1) in
         emit (JSON_parse_call text) ;;;
         parsed <- lift (JSON_parse host text) ;;
         ret {| status := 200; payload := Json parsed |}).

End Server.

(** ** Reading a trace *)

(** The prompts sent to the model. *)
Definition model_calls (t : list Event) : list jsstring :=
  flat_map (fun e => match e with generateContent p => [p] | _ => [] end) t.

(** The texts handed to [JSON.parse]. *)
Definition parse_calls (t : list Event) : list jsstring :=
  flat_map (fun e => match e with JSON_parse_call x => [x] | _ => [] end) t.

(** The value of [cleanText] in [/analyze] and [/solve] when the model's
    text is [reply]. *)
Definition cleanText_of (reply : jsstring) : jsstring :=
  trim (replace_json_fences (trim reply)).

(** The value of [cleanHTML] in [/mindmap] when the model's text is
    [reply]. *)
Definition cleanHTML_of (reply : jsstring) : jsstring :=
  trim (replace_html_fences (trim reply)).

(** The argument of [JSON.parse]: [cleanText.slice(start, end + 1)]. *)
Definition json_slice (cleanText : jsstring) : jsstring :=
  slice cleanText (indexOf cleanText (js "{"))
    (lastIndexOf cleanText (js "}") + 1).

(** Both braces were found. *)
Definition braces_found (cleanText : jsstring) : bool :=
  negb ((indexOf cleanText (js "{") =? -1)%Z
        || (lastIndexOf cleanText (js "}") =? -1)%Z).

(** The fence removal as the specification words it for the JSON
    extractor: all three markers are removed. *)
Definition spec_remove_fences (s : jsstring) : jsstring :=
  replace_all [fence_json; fence_html; fence] 0 s.

(** The lines the specification describes for a sequence of questions:
    each entry after its ordinal, counted from [n]. *)
Fixpoint ordinal_lines (n : N) (qs : list jsstring) : list jsstring :=
  match qs with
  | [] => []
  | q :: rest => (decimal n ++ js ". " ++ q) :: ordinal_lines (n + 1) rest
  end.

(** The keys of the [/analyze] schema. *)
Definition seven_keys : list jsstring :=
  [ js "vocabulary"; js "title"; js "main_idea";
    js "facts_opinions_inferences"; js "transitions"; js "keywords";
    js "purpose" ].

(** The two routes that extract JSON from the reply. *)
Inductive JsonRoute : Type := Analyze | Solve.

Definition handle (route : JsonRoute) (host : Host) (body : object)
  : list Event * Response :=
  match route with
  | Analyze => analyze host body
  | Solve => solve host body
  end.

(** The request passes the guard of the route, its fields convert to text
    and the model answers [r] to the prompt made of them. *)
Definition model_replies (route : JsonRoute) (host : Host) (body : object)
  (r : jsstring) : Prop :=
  exists p,
    ToBoolean (Get body (js "passage")) = true
    /\ ToString_value (Get body (js "passage")) = Ok p
    /\ match route with
       | Analyze => model_text host (analyze_prompt host p) = Ok r
       | Solve =>
           exists combined q,
             ToBoolean (Get body (js "questions")) = true
             /\ combinedQuestions (Get body (js "questions")) = Ok combined
             /\ ToString_value combined = Ok q
             /\ model_text host (solve_prompt host p q) = Ok r
       end.

(** No backtick among the code units of [a]. *)
Definition no_backtick (a : jsstring) : bool :=
  forallb (fun c => negb (c =? 96)%N) a.

(** The object has the seven keys of the schema and no other. *)
Definition exactly_seven_keys (j : json) : Prop :=
  exists props,
    j = JObj props
    /\ (forall k, In k seven_keys -> Get props k <> None)
    /\ (forall k v, In (k, v) props -> In k seven_keys).

(** ** A host to run the handlers on *)

Module Mock.

(** A [JSON.parse] that knows the texts of [table] and rejects the rest. *)
Definition parse (table : list (jsstring * json)) (text : jsstring)
  : result json :=
  match Get table text with
  | Some j => Ok j
  | None => Throw (js "Unexpected end of JSON input")
  end.

(** A host whose model answers [reply] to every prompt. *)
Definition host (reply : result jsstring) (table : list (jsstring * json))
  : Host :=
  {| RC_ANALYSIS_PROMPT := js "Analyze the passage.";
     RC_MINDMAP_PROMPT := js "Draw a mind map.";
     RC_THOUGHT_SOLVER_PROMPT := js "Solve the questions.";
     model_text := fun _ => reply;
     JSON_parse := parse table |}.

Definition passage_body : object := [ (js "passage", JStr (js "Some text.")) ].

Definition questions_body : object :=
  [ (js "passage", JStr (js "Some text."));
    (js "questions", JArr [ JStr (js "What is X?"); JStr (js "Why Y?") ]) ].

(** A reply that matches the schema, and the same without [purpose]. *)
Definition analysis_without_purpose : object :=
  [ (js "vocabulary",
      JArr [ JObj [ (js "word", JStr (js "arid")); (js "meaning", JStr (js "dry")) ] ]);
    (js "title", JStr (js "Deserts"));
    (js "main_idea",
      JObj [ (js "direct", JStr (js "Deserts are dry."));
             (js "indirect", JStr (js "Water shapes life.")) ]);
    (js "facts_opinions_inferences",
      JArr [ JObj [ (js "type", JStr (js "Fact"));
                    (js "text", JStr (js "Deserts get little rain.")) ] ]);
    (js "transitions",
      JArr [ JObj [ (js "src", JStr (js "rain")); (js "dest", JStr (js "life"));
                    (js "relation", JStr (js "causal")) ] ]);
    (js "keywords", JArr [ JStr (js "desert"); JStr (js "rain") ]) ].

Definition analysis : object :=
  analysis_without_purpose ++ [ (js "purpose", JStr (js "To inform.")) ].

End Mock.

(** ** The first revision: [server.js] with the single route *)

Module Minimal.

Section Server.

Variable host : Host.

Local Open Scope js_scope.

(** [app.post("/analyze", ...)] of the first revision: the model is called
    in the handler itself, and the catch block answers with a fixed
    [error] and the message under [details]. *)
Definition analyze (body : object) : list Event * Response :=
  match
    (let passage := Get body (js "passage") in
     if negb (ToBoolean passage) then
       ret (error_response 400 (js "Passage is required"))
     else
       passage_text <- lift (ToString_value passage) ;;
       let prompt :=
         RC_ANALYSIS_PROMPT host ++ LF ++ LF ++ js "Passage:" ++ LF
         ++ passage_text in
       emit (generateContent prompt) ;;;
       text <- lift (model_text host prompt) ;;
       let responseText := trim text in
       emit (console_log (robot ++ js " Gemini response:")
               (LogText responseText)) ;;;
       let cleanText := trim (replace_json_fences responseText) in
       let start := indexOf cleanText (js "{") in
       let end_ := lastIndexOf cleanText (js "}") in
       if (start =? -1)%Z || (end_ =? -1)%Z then
         ret (error_response 400 (js "No valid JSON found in AI response"))
       else
         let jsonString := slice cleanText start (end_ + 1) in
         emit (JSON_parse_call jsonString) ;;;
         parsed <- lift (JSON_parse host jsonString) ;;
         let valid := validate parsed in
         if negb valid then
           emit (console_warn (warning_sign ++ js " Schema validation failed:")
                   (LogErrors (validate_errors parsed))) ;;;
           ret {| status := 422;
                  payload := ValidationFailure
                               (js "Response schema validation failed")
                               (validate_errors parsed) parsed |}
         else
           ret {| status := 200; payload := Json parsed |})
  with
  | (t, Ok r) => (t, r)
  | (t, Throw message) =>
      (t ++ [ console_error (cross_mark ++ js " Server error:")
                (LogError message) ],
       {| status := 500;
          payload := Json (JObj [ (js "error", JStr (js "Internal server error"));
                                  (js "details", JStr message) ]) |})
  end.

End Server.

End Minimal.

(** ** Reading a trace, continued *)

Definition is_console_error (e : Event) : bool :=
  match e with console_error _ _ => true | _ => false end.

Definition is_console_warn (e : Event) : bool :=
  match e with console_warn _ _ => true | _ => false end.

(** The texts logged with [console.log]. *)
Definition logged_texts (t : list Event) : list jsstring :=
  flat_map (fun e => match e with
                     | console_log _ (LogText x) => [x]
                     | _ => []
                     end) t.

(** ** What the schema means *)

(** A value conforms to a schema when every keyword that applies to it
    holds, whatever the order in which a validator looks at them. *)
Fixpoint conforms (s : Schema) (data : json) {struct s} : bool :=
  match s with
  | MkSchema type enum properties items required additionalProperties =>
      match type with
      | Some t => checkDataType t data
      | None => true
      end
      && match data with
         | JObj props =>
             forallb (fun k => match Get props k with
                               | Some _ => true
                               | None => false
                               end) required
             && (additionalProperties
                 || forallb (fun kv => has_key (map fst properties) (fst kv))
                      props)
             && (fix each (ps : list (jsstring * Schema)) : bool :=
                   match ps with
                   | [] => true
                   | (k, sub) :: ps' =>
                       match Get props k with
                       | Some x => conforms sub x
                       | None => true
                       end && each ps'
                   end) properties
         | JArr elems =>
             match items with
             | Some sub => forallb (conforms sub) elems
             | None => true
             end
         | _ => true
         end
      && match enum with
         | Some allowed => existsb (json_eqb data) allowed
         | None => true
         end
  end.

Definition is_string (j : json) : Prop := exists s, j = JStr s.

Definition is_one_of (allowed : list jsstring) (j : json) : Prop :=
  exists s, j = JStr s /\ In s allowed.

Definition is_array_of (P : json -> Prop) (j : json) : Prop :=
  exists elems, j = JArr elems /\ Forall P elems.

(** An object that has each of the [fields], with a value of the given
    kind; other keys are not excluded. *)
Definition is_object_with (fields : list (jsstring * (json -> Prop)))
  (j : json) : Prop :=
  exists o,
    j = JObj o
    /\ Forall (fun kp => exists v, Get o (fst kp) = Some v /\ snd kp v) fields.

(** The shape the schema of [/analyze] describes. *)
Definition analysis_shape (j : json) : Prop :=
  is_object_with
    [ (js "vocabulary",
        is_array_of
          (is_object_with [ (js "word", is_string); (js "meaning", is_string) ]));
      (js "title", is_string);
      (js "main_idea",
        is_object_with [ (js "direct", is_string); (js "indirect", is_string) ]);
      (js "facts_opinions_inferences",
        is_array_of
          (is_object_with
             [ (js "type", is_one_of [ js "Fact"; js "Opinion"; js "Inference" ]);
               (js "text", is_string) ]));
      (js "transitions",
        is_array_of
          (is_object_with
             [ (js "src", is_string);
               (js "dest", is_string);
               (js "relation",
                 is_one_of [ js "logical"; js "contrastive"; js "sequential";
                             js "causal" ]) ]));
      (js "keywords", is_array_of is_string);
      (js "purpose", is_string) ]
    j.

(** ** A request that no body parser took *)

(** The message of the [TypeError] that [const { passage } = req.body]
    throws when [req.body] is [undefined]. *)
Definition TypeError_destructure : jsstring :=
  js "Cannot destructure property 'passage' of 'req.body' as it is undefined.".

(** The handlers on [req.body] itself: the object a body parser made of the
    request, or [undefined], here [None], when no parser took the request.
    The destructuring stands inside the [try], so that its [TypeError]
    reaches the [catch] of the handler. *)
Definition analyze_request (host : Host) (req_body : option object)
  : list Event * Response :=
  match req_body with
  | Some body => analyze host body
  | None =>
      try_catch (cross_mark ++ js " /analyze error:")
        (lift (Throw TypeError_destructure))
  end.

Definition mindmap_request (host : Host) (req_body : option object)
  : list Event * Response :=
  match req_body with
  | Some body => mindmap host body
  | None =>
      try_catch (cross_mark ++ js " /mindmap error:")
        (lift (Throw TypeError_destructure))
  end.

Definition solve_request (host : Host) (req_body : option object)
  : list Event * Response :=
  match req_body with
  | Some body => solve host body
  | None =>
      try_catch (cross_mark ++ js " /solve error:")
        (lift (Throw TypeError_destructure))
  end.

(** ** What a global replace does *)

(** [f] deletes, scanning from the left, each match of the marker with the
    language tag [lang] and, where that one does not match, each match of the
    bare marker, goes on after the match, and keeps every code unit at which
    no marker starts: the leftmost, non-overlapping matches of the pattern
    [/```lang|```/g]. *)
Definition leftmost_removal (lang : jsstring) (f : jsstring -> jsstring)
  : Prop :=
  f [] = []
  /\ (forall s, f (fence ++ lang ++ s) = f s)
  /\ (forall s, startsWith lang s = false -> f (fence ++ s) = f s)
  /\ (forall c s, startsWith fence (c :: s) = false -> f (c :: s) = c :: f s).

(** The last code unit of [a] is a backtick. *)
Definition ends_with_backtick (a : jsstring) : bool :=
  (last a 0 =? 96)%N.

(** ** Induction on a schema and its subschemas *)

Section SchemaInduction.

Variable P : Schema -> Prop.

Hypothesis step :
  forall type enum properties items required additionalProperties,
    Forall (fun kv => P (snd kv)) properties ->
    match items with Some sub => P sub | None => True end ->
    P (MkSchema type enum properties items required additionalProperties).

Fixpoint Schema_nested_ind (s : Schema) : P s :=
  match s with
  | MkSchema type enum properties items required additionalProperties =>
      step type enum properties items required additionalProperties
        ((fix each (ps : list (jsstring * Schema))
            : Forall (fun kv => P (snd kv)) ps :=
            match ps with
            | [] => @Forall_nil _ _
            | (k, sub) :: ps' =>
                @Forall_cons _ _ (k, sub) ps' (Schema_nested_ind sub) (each ps')
            end) properties)
        (match items as o
               return match o with Some sub => P sub | None => True end with
         | Some sub => Schema_nested_ind sub
         | None => I
         end)
  end.

End SchemaInduction.

(** * Properties *)

(** ** Strings *)

(** The string methods on small inputs. *)

Example trim_removes_both_ends :
  trim ([0xFEFF; 9; 32]%N ++ js "a b" ++ [0xA0; 10; 13]%N) = js "a b".
Proof. reflexivity. Qed.

Example indexOf_first_lastIndexOf_last :
  indexOf (js "ab{c}d}") (js "{") = 2%Z
  /\ lastIndexOf (js "ab{c}d}") (js "}") = 6%Z
  /\ indexOf (js "abc") (js "{") = (-1)%Z
  /\ lastIndexOf (js "abc") (js "}") = (-1)%Z.
Proof. repeat split. Qed.

Example slice_clamps_and_counts_from_the_end :
  slice (js "abcdef") 2 4 = js "cd"
  /\ slice (js "abcdef") (-3) (-1) = js "de"
  /\ slice (js "abcdef") 4 100 = js "ef"
  /\ slice (js "abcdef") 4 2 = [].
Proof. repeat split. Qed.

Example replace_matches_leftmost :
  replace_json_fences (js "````json") = js "`json"
  /\ replace_json_fences (js "a```json```b") = js "ab"
  /\ replace_html_fences (js "a```json```b") = js "ajsonb".
Proof. repeat split. Qed.

Example ToString_of_array :
  ToString (JArr [ JNull; JNum (js "1"); JArr [ JStr (js "a"); JBool true ];
                   JObj [] ]) = Ok (js ",1,a,true,[object Object]").
Proof. reflexivity. Qed.

Example validate_examples :
  validate (JObj Mock.analysis) = true
  /\ validate (JObj Mock.analysis_without_purpose) = false
  /\ validate (JObj ((js "extra", JNull) :: Mock.analysis)) = false
  /\ validate (JArr []) = false.
Proof. repeat split. Qed.

Lemma str_eqb_eq (a b : jsstring) : str_eqb a b = true <-> a = b.
Proof.
  revert b; induction a as [|x a IH]; intros [|y b]; simpl;
    try (split; [discriminate | discriminate]); try tauto.
  rewrite andb_true_iff, N.eqb_eq, IH. split.
  - intros [-> ->]; reflexivity.
  - intros E; injection E; auto.
Qed.

Lemma str_eqb_refl (a : jsstring) : str_eqb a a = true.
Proof. apply str_eqb_eq; reflexivity. Qed.

Lemma startsWith_iff (p s : jsstring) :
  startsWith p s = true <-> exists r, s = p ++ r.
Proof.
  revert s; induction p as [|x p IH]; intros s; simpl.
  - split; [intros _; exists s; reflexivity | reflexivity].
  - destruct s as [|y s].
    + split; [discriminate | intros [r E]; discriminate].
    + rewrite andb_true_iff, N.eqb_eq, IH. split.
      * intros [-> [r ->]]; exists r; reflexivity.
      * intros [r E]; injection E as -> ->; split; [reflexivity | exists r; reflexivity].
Qed.

Lemma startsWith_app (p q r : jsstring) : startsWith p (p ++ r) = true.
Proof. clear q. apply startsWith_iff; exists r; reflexivity. Qed.

Lemma startsWith_longer (p q s : jsstring) :
  startsWith p s = false -> startsWith (p ++ q) s = false.
Proof.
  intros H. destruct (startsWith (p ++ q) s) eqn:E; [|reflexivity].
  apply startsWith_iff in E as [r ->]. rewrite <- app_assoc in H.
  rewrite (startsWith_app p q) in H. discriminate.
Qed.

(** ** Fence removal *)

Section Fences.

Variable lang : jsstring.

Let alts : list jsstring := [fence ++ lang; fence].

Lemma replace_skipn (n : nat) (s : jsstring) :
  replace_all alts n s = replace_all alts 0 (skipn n s).
Proof.
  revert n; induction s as [|c t IH]; intros [|n]; try reflexivity.
  simpl skipn. rewrite <- IH. reflexivity.
Qed.

Lemma replace_keep (c : N) (t : jsstring) :
  startsWith fence (c :: t) = false ->
  replace_all alts 0 (c :: t) = c :: replace_all alts 0 t.
Proof.
  intros H. cbn [replace_all alts match_alt].
  rewrite (startsWith_longer _ lang _ H), H. reflexivity.
Qed.

Lemma replace_marker (r : jsstring) :
  replace_all alts 0 ((fence ++ lang) ++ r) = replace_all alts 0 r.
Proof.
  change ((fence ++ lang) ++ r) with (96%N :: (js "``" ++ lang) ++ r).
  cbn [replace_all alts match_alt].
  change (96%N :: (js "``" ++ lang) ++ r) with ((fence ++ lang) ++ r).
  rewrite (startsWith_app (fence ++ lang) [] r).
  change (List.length (fence ++ lang)) with (S (List.length (js "``" ++ lang))).
  cbv iota.
  rewrite replace_skipn, skipn_app, skipn_all, Nat.sub_diag. reflexivity.
Qed.

Lemma replace_fence (r : jsstring) :
  startsWith lang r = false ->
  replace_all alts 0 (fence ++ r) = replace_all alts 0 r.
Proof.
  intros H.
  change (fence ++ r) with (96%N :: js "``" ++ r).
  cbn [replace_all alts match_alt].
  change (96%N :: js "``" ++ r) with (fence ++ r).
  assert (E : startsWith (fence ++ lang) (fence ++ r) = false).
  { destruct (startsWith (fence ++ lang) (fence ++ r)) eqn:E; [|reflexivity].
    apply startsWith_iff in E as [x E]. rewrite <- app_assoc in E.
    apply app_inv_head in E. subst r. rewrite (startsWith_app lang [] x) in H.
    discriminate. }
  rewrite E, (startsWith_app fence [] r).
  change (List.length fence) with 3%nat. cbv iota.
  rewrite replace_skipn. reflexivity.
Qed.

Lemma replace_plain (a s : jsstring) :
  forallb (fun c => negb (c =? 96)%N) a = true ->
  replace_all alts 0 (a ++ s) = a ++ replace_all alts 0 s.
Proof.
  induction a as [|c a IH]; intros H; [reflexivity|].
  simpl in H. apply andb_true_iff in H as [Hc Ha].
  change ((c :: a) ++ s) with (c :: a ++ s).
  rewrite replace_keep.
  - rewrite (IH Ha). reflexivity.
  - change fence with [96; 96; 96]%N. cbn [startsWith].
    rewrite N.eqb_sym. apply negb_true_iff in Hc. rewrite Hc. reflexivity.
Qed.

Lemma replace_head1 (u : jsstring) :
  startsWith [96%N] u = false -> startsWith [96%N] (replace_all alts 0 u) = false.
Proof.
  destruct u as [|e u]; [reflexivity|]. intros H.
  rewrite replace_keep.
  - exact H.
  - apply (startsWith_longer [96%N] [96%N; 96%N] _ H).
Qed.

Lemma replace_head2 (u : jsstring) :
  startsWith [96; 96]%N u = false ->
  startsWith [96; 96]%N (replace_all alts 0 u) = false.
Proof.
  destruct u as [|d u]; [reflexivity|]. intros H.
  rewrite replace_keep by apply (startsWith_longer [96; 96]%N [96%N] _ H).
  cbn [startsWith] in *. destruct (96 =? d)%N; [|reflexivity].
  simpl in *. apply (replace_head1 u). exact H.
Qed.

Lemma replace_head3 (s : jsstring) :
  startsWith fence s = false ->
  startsWith fence (replace_all alts 0 s) = false.
Proof.
  destruct s as [|c s]; [reflexivity|]. intros H.
  rewrite replace_keep by exact H.
  change fence with [96; 96; 96]%N in *.
  cbn [startsWith] in *. destruct (96 =? c)%N; [|reflexivity].
  simpl in *. apply (replace_head2 s). exact H.
Qed.

Lemma replace_no_fence (s : jsstring) (n : nat) (i : Z) :
  indexOf_from fence (replace_all alts n s) i = (-1)%Z.
Proof.
  revert n i; induction s as [|c t IH]; intros n i; [reflexivity|].
  destruct n as [|n]; [|apply IH].
  destruct (startsWith fence (c :: t)) eqn:E.
  - cbn [replace_all alts match_alt].
    destruct (startsWith (fence ++ lang) (c :: t)).
    + apply IH.
    + rewrite E. apply IH.
  - pose proof (replace_head3 _ E) as H3.
    rewrite replace_keep in * by exact E.
    cbn [indexOf_from]. rewrite H3. apply IH.
Qed.

End Fences.

(** The four equations of a leftmost removal hold of the replacement, and
    they leave no choice. *)
Lemma replace_is_leftmost_removal (lang : jsstring) :
  leftmost_removal lang (replace_all [fence ++ lang; fence] 0).
Proof.
  split; [reflexivity|]. split; [|split].
  - intros s. rewrite app_assoc. apply replace_marker.
  - intros s H. apply replace_fence. exact H.
  - intros c s H. apply replace_keep. exact H.
Qed.

Lemma leftmost_removal_unique (lang : jsstring) (f : jsstring -> jsstring) :
  leftmost_removal lang f ->
  forall s, f s = replace_all [fence ++ lang; fence] 0 s.
Proof.
  intros [F0 [F1 [F2 F3]]].
  destruct (replace_is_leftmost_removal lang) as [_ [R1 [R2 R3]]].
  assert (G : forall n s, (List.length s <= n)%nat ->
                          f s = replace_all [fence ++ lang; fence] 0 s).
  { induction n as [|n IH]; intros s L.
    - destruct s; [exact F0 | simpl in L; lia].
    - destruct s as [|c t]; [exact F0|].
      destruct (startsWith fence (c :: t)) eqn:E.
      + apply startsWith_iff in E as [r E]. rewrite E.
        assert (Lr : (List.length r <= n)%nat).
        { rewrite E in L. change (fence ++ r) with (96 :: 96 :: 96 :: r)%N in L.
          simpl in L. lia. }
        destruct (startsWith lang r) eqn:E'.
        * apply startsWith_iff in E' as [r' ->].
          rewrite F1, R1. apply IH. rewrite length_app in Lr. lia.
        * rewrite (F2 r E'), (R2 r E'). apply IH. exact Lr.
      + rewrite (F3 c t E), (R3 c t E). f_equal. apply IH. simpl in L. lia. }
  intros s. apply (G (List.length s)). lia.
Qed.

Lemma ends_with_backtick_suffix (x y : jsstring) :
  y <> [] -> ends_with_backtick (x ++ y) = ends_with_backtick y.
Proof.
  intros H. unfold ends_with_backtick. f_equal.
  induction x as [|c x IH]; [reflexivity|].
  cbn [app]. destruct (x ++ y) as [|d l] eqn:E.
  - destruct x; [contradiction | discriminate].
  - cbn [last]. exact IH.
Qed.

Section FencesAnywhere.

Variable lang : jsstring.

Hypothesis lang_plain : no_backtick lang = true.

(** A tag without backticks that matches across the end of [u], into a
    text that starts with a backtick, matches inside [u]. *)
Lemma tag_matches_inside (l u t : jsstring) :
  no_backtick l = true ->
  startsWith [96%N] t = true ->
  startsWith l (u ++ t) = true -> startsWith l u = true.
Proof.
  intros Hl Ht. revert u. induction l as [|x l IH]; intros u H; [reflexivity|].
  cbn [no_backtick forallb] in Hl. apply andb_true_iff in Hl as [Hx Hl].
  destruct u as [|y u].
  - cbn [app] in H. destruct t as [|z t]; [discriminate|].
    cbn [startsWith] in H, Ht. apply andb_true_iff in H as [H _].
    apply andb_true_iff in Ht as [Ht _]. apply N.eqb_eq in H, Ht. subst.
    rewrite N.eqb_refl in Hx. discriminate.
  - cbn [app startsWith] in *. apply andb_true_iff in H as [H1 H2].
    rewrite H1. exact (IH Hl u H2).
Qed.

Lemma startsWith_prefix_of_app (q u t : jsstring) :
  startsWith q u = true -> startsWith q (u ++ t) = true.
Proof.
  intros H. apply startsWith_iff in H as [r ->]. rewrite <- app_assoc.
  apply (startsWith_app q [] (r ++ t)).
Qed.

(** The scan of a text that does not end with a backtick is not disturbed
    by a text that follows and starts with one. *)
Lemma replace_app (a t : jsstring) :
  ends_with_backtick a = false ->
  startsWith [96%N] t = true ->
  replace_all [fence ++ lang; fence] 0 (a ++ t)
  = replace_all [fence ++ lang; fence] 0 a
    ++ replace_all [fence ++ lang; fence] 0 t.
Proof.
  intros Ha Ht.
  assert (G : forall n a, (List.length a <= n)%nat ->
                          ends_with_backtick a = false ->
                          replace_all [fence ++ lang; fence] 0 (a ++ t)
                          = replace_all [fence ++ lang; fence] 0 a
                            ++ replace_all [fence ++ lang; fence] 0 t).
  { clear a Ha. induction n as [|n IH]; intros a L Ha.
    - destruct a; [reflexivity | simpl in L; lia].
    - destruct a as [|c a']; [reflexivity|].
      destruct (startsWith fence ((c :: a') ++ t)) eqn:E.
      + destruct a' as [|d [|e a'']].
        * change fence with [96; 96; 96]%N in E. cbn [app startsWith] in E.
          apply andb_true_iff in E as [E _]. apply N.eqb_eq in E.
          subst c. discriminate.
        * change fence with [96; 96; 96]%N in E. cbn [app startsWith] in E.
          apply andb_true_iff in E as [_ E].
          apply andb_true_iff in E as [E _]. apply N.eqb_eq in E.
          subst d. discriminate.
        * assert (C : c = 96%N /\ d = 96%N /\ e = 96%N).
          { change fence with [96; 96; 96]%N in E. cbn [app startsWith] in E.
            repeat (apply andb_true_iff in E as [?E E]).
            repeat match goal with H : (_ =? _)%N = true |- _ =>
                     apply N.eqb_eq in H end.
            repeat split; congruence. }
          destruct C as [-> [-> ->]]. clear E.
          change ((96 :: 96 :: 96 :: a'') ++ t)%N with (fence ++ a'' ++ t).
          change (96 :: 96 :: 96 :: a'')%N with (fence ++ a'').
          assert (Na : a'' <> []) by (intros ->; discriminate).
          change (96 :: 96 :: 96 :: a'')%N with ([96; 96; 96]%N ++ a'') in Ha.
          rewrite (ends_with_backtick_suffix _ a'' Na) in Ha.
          destruct (startsWith lang (a'' ++ t)) eqn:F.
          -- pose proof (tag_matches_inside lang a'' t lang_plain Ht F) as F'.
             apply startsWith_iff in F' as [a3 ->].
             rewrite <- (app_assoc lang a3 t).
             rewrite !(app_assoc fence lang), !replace_marker.
             apply IH.
             ++ simpl in L. rewrite length_app in L. lia.
             ++ destruct a3 as [|x a3]; [reflexivity|].
                rewrite ends_with_backtick_suffix in Ha by discriminate.
                exact Ha.
          -- assert (F' : startsWith lang a'' = false).
             { destruct (startsWith lang a'') eqn:X; [|reflexivity].
               rewrite (startsWith_prefix_of_app lang a'' t X) in F.
               discriminate. }
             rewrite (replace_fence lang _ F), (replace_fence lang _ F').
             apply IH; [simpl in L; lia | exact Ha].
      + assert (E' : startsWith fence (c :: a') = false).
        { destruct (startsWith fence (c :: a')) eqn:X; [|reflexivity].
          rewrite (startsWith_prefix_of_app fence (c :: a') t X) in E.
          discriminate. }
        change ((c :: a') ++ t) with (c :: a' ++ t) in *.
        rewrite (replace_keep lang c _ E), (replace_keep lang c _ E').
        cbn [app]. f_equal. apply IH; [simpl in L; lia|].
        destruct a' as [|x a']; [reflexivity|].
        change (c :: x :: a') with ([c] ++ x :: a') in Ha.
        rewrite ends_with_backtick_suffix in Ha by discriminate. exact Ha. }
  apply (G (List.length a)); [lia | exact Ha].
Qed.

End FencesAnywhere.

(** ** The handlers, case by case *)

Section Routes.

Variable host : Host.
Variable body : object.

Lemma analyze_rejects :
  ToBoolean (Get body (js "passage")) = false ->
  analyze host body = ([], error_response 400 (js "Passage is required")).
Proof. intros H. unfold analyze. rewrite H. reflexivity. Qed.

Lemma mindmap_rejects :
  ToBoolean (Get body (js "passage")) = false ->
  mindmap host body = ([], error_response 400 (js "Passage is required")).
Proof. intros H. unfold mindmap. rewrite H. reflexivity. Qed.

Lemma solve_rejects :
  ToBoolean (Get body (js "passage")) = false
  \/ ToBoolean (Get body (js "questions")) = false ->
  solve host body =
    ([], error_response 400 (js "Passage and questions are required")).
Proof.
  intros H. unfold solve.
  assert (E : negb (ToBoolean (Get body (js "passage")))
              || negb (ToBoolean (Get body (js "questions"))) = true).
  { destruct H as [-> | ->]; [reflexivity | apply orb_true_r]. }
  rewrite E. reflexivity.
Qed.

Variable p : jsstring.
Hypothesis passage_truthy : ToBoolean (Get body (js "passage")) = true.
Hypothesis passage_text : ToString_value (Get body (js "passage")) = Ok p.

(** [/analyze] once the model has answered [r]. *)
Lemma analyze_replied (r : jsstring) :
  model_text host (analyze_prompt host p) = Ok r ->
  analyze host body =
    let pre := [ generateContent (analyze_prompt host p);
                 console_log (robot ++ js " /analyze Gemini response:")
                   (LogText (trim r)) ] in
    let text := json_slice (cleanText_of r) in
    if braces_found (cleanText_of r) then
      match JSON_parse host text with
      | Throw m =>
          (pre ++ [ JSON_parse_call text;
                    console_error (cross_mark ++ js " /analyze error:")
                      (LogError m) ],
           error_response 500 m)
      | Ok parsed =>
          if validate parsed then
            (pre ++ [ JSON_parse_call text ],
             {| status := 200; payload := Json parsed |})
          else
            (pre ++ [ JSON_parse_call text;
                      console_warn
                        (warning_sign ++ js " Schema validation failed:")
                        (LogErrors (validate_errors parsed)) ],
             {| status := 422;
                payload := ValidationFailure
                             (js "Response schema validation failed")
                             (validate_errors parsed) parsed |})
      end
    else (pre, error_response 400 (js "No valid JSON found")).
Proof.
  intros Hr. unfold analyze, generateWithModel, braces_found, json_slice, cleanText_of.
  rewrite passage_truthy, passage_text. cbn [negb lift bind emit ret app].
  rewrite Hr. cbn [negb lift bind emit ret app].
  destruct ((indexOf _ _ =? -1)%Z || (lastIndexOf _ _ =? -1)%Z);
    cbn [negb try_catch]; [reflexivity|].
  destruct (JSON_parse host _) as [parsed|m]; cbn [try_catch app]; [|reflexivity].
  destruct (validate parsed); reflexivity.
Qed.

Lemma analyze_model_failed (m : jsstring) :
  model_text host (analyze_prompt host p) = Throw m ->
  analyze host body =
    ([ generateContent (analyze_prompt host p);
       console_error (cross_mark ++ js " /analyze error:") (LogError m) ],
     error_response 500 m).
Proof.
  intros Hr. unfold analyze, generateWithModel.
  rewrite passage_truthy, passage_text. cbn [negb lift bind emit ret app].
  rewrite Hr. reflexivity.
Qed.

(** [/mindmap] once the model has answered [r]. *)
Lemma mindmap_replied (r : jsstring) :
  model_text host (mindmap_prompt host p) = Ok r ->
  mindmap host body =
    ([ generateContent (mindmap_prompt host p);
       console_log (robot ++ js " /mindmap Gemini response:")
         (LogText (trim r)) ],
     {| status := 200; payload := Send (cleanHTML_of r) |}).
Proof.
  intros Hr. unfold mindmap, generateWithModel, cleanHTML_of.
  rewrite passage_truthy, passage_text. cbn [negb lift bind emit ret app].
  rewrite Hr. reflexivity.
Qed.

Variable q : jsstring.
Variable combined : value.
Hypothesis questions_truthy : ToBoolean (Get body (js "questions")) = true.
Hypothesis questions_combined :
  combinedQuestions (Get body (js "questions")) = Ok combined.
Hypothesis combined_text : ToString_value combined = Ok q.

(** [/solve] once the model has answered [r]. *)
Lemma solve_replied (r : jsstring) :
  model_text host (solve_prompt host p q) = Ok r ->
  solve host body =
    let pre := [ generateContent (solve_prompt host p q);
                 console_log (robot ++ js " /solve Gemini response:")
                   (LogText (trim r)) ] in
    let text := json_slice (cleanText_of r) in
    if braces_found (cleanText_of r) then
      match JSON_parse host text with
      | Throw m =>
          (pre ++ [ JSON_parse_call text;
                    console_error (cross_mark ++ js " /solve error:")
                      (LogError m) ],
           error_response 500 m)
      | Ok parsed =>
          (pre ++ [ JSON_parse_call text ],
           {| status := 200; payload := Json parsed |})
      end
    else (pre, error_response 400 (js "No valid JSON found")).
Proof.
  intros Hr. unfold solve, generateWithModel, braces_found, json_slice, cleanText_of.
  rewrite passage_truthy, questions_truthy, questions_combined.
  cbn [negb orb lift bind emit ret app].
  rewrite passage_text. cbn [negb orb lift bind emit ret app].
  rewrite combined_text. cbn [negb orb lift bind emit ret app].
  rewrite Hr. cbn [negb lift bind emit ret app].
  destruct ((indexOf _ _ =? -1)%Z || (lastIndexOf _ _ =? -1)%Z);
    cbn [negb try_catch]; [reflexivity|].
  destruct (JSON_parse host _) as [parsed|m]; reflexivity.
Qed.

Lemma solve_model_failed (m : jsstring) :
  model_text host (solve_prompt host p q) = Throw m ->
  solve host body =
    ([ generateContent (solve_prompt host p q);
       console_error (cross_mark ++ js " /solve error:") (LogError m) ],
     error_response 500 m).
Proof.
  intros Hr. unfold solve, generateWithModel.
  rewrite passage_truthy, questions_truthy, questions_combined.
  cbn [negb orb lift bind emit ret app].
  rewrite passage_text. cbn [negb orb lift bind emit ret app].
  rewrite combined_text. cbn [negb orb lift bind emit ret app].
  rewrite Hr. reflexivity.
Qed.

End Routes.

(** ** The validator *)

Lemma has_key_In (keys : list jsstring) (k : jsstring) :
  has_key keys k = true <-> In k keys.
Proof.
  unfold has_key. rewrite existsb_exists. split.
  - intros [x [Hx E]]. apply str_eqb_eq in E. subst x. exact Hx.
  - intros H. exists k. split; [exact H | apply str_eqb_refl].
Qed.

(** A value that passes a schema of type [object] is an object with every
    required key and, when the schema is closed, with no key outside its
    [properties]. *)
Lemma first_error_object (en : option (list json))
  (props : list (jsstring * Schema)) (items : option Schema)
  (req : list jsstring) (addl : bool) (ip sp : jsstring) (data : json) :
  first_error (MkSchema (Some TObject) en props items req addl) ip sp data = None ->
  exists fields,
    data = JObj fields
    /\ (forall k, In k req -> Get fields k <> None)
    /\ (addl = false ->
        forall k v, In (k, v) fields -> In k (map fst props)).
Proof.
  destruct data as [| b | n | x | elems | fields]; cbn [first_error checkDataType];
    try discriminate.
  intros H. exists fields. split; [reflexivity|].
  destruct (find _ req) as [k0|] eqn:F1; [discriminate|].
  split.
  - intros k Hk E. pose proof (find_none _ _ F1 k Hk) as F. cbv beta in F.
    rewrite E in F. discriminate.
  - intros -> k v Hkv.
    destruct (find _ fields) as [kv|] eqn:F2; [discriminate|].
    pose proof (find_none _ _ F2 (k, v) Hkv) as F. cbv beta in F.
    apply negb_false_iff in F. apply has_key_In in F. exact F.
Qed.

Lemma validate_exactly_seven (j : json) :
  validate j = true -> exactly_seven_keys j.
Proof.
  unfold validate, validate_errors. intros H.
  destruct (first_error schema [] (js "#") j) as [e|] eqn:E; [discriminate|].
  apply first_error_object in E as [fields [-> [Hreq Hadd]]].
  exists fields. split; [reflexivity|]. split.
  - exact Hreq.
  - intros k v Hkv. exact (Hadd eq_refl k v Hkv).
Qed.

Lemma validate_errors_nonempty (j : json) :
  validate j = false -> validate_errors j <> [].
Proof.
  unfold validate. destruct (validate_errors j); [discriminate|]. intros _ E. discriminate.
Qed.

(** ** Searching and slicing *)

Lemma startsWith_nonempty (c : N) (p s : jsstring) (n : nat) :
  startsWith (c :: p) (skipn n s) = true -> (n < List.length s)%nat.
Proof.
  intros H. destruct (Nat.lt_ge_cases n (List.length s)) as [L|L]; [exact L|].
  rewrite skipn_all2 in H by exact L. discriminate.
Qed.

(** [indexOf] finds the first occurrence. *)
Lemma indexOf_from_first (p s : jsstring) (i : Z) :
  (0 <= i)%Z ->
  indexOf_from p s i <> (-1)%Z ->
  exists n,
    indexOf_from p s i = (i + Z.of_nat n)%Z
    /\ (n <= List.length s)%nat
    /\ startsWith p (skipn n s) = true
    /\ (forall k, (k < n)%nat -> startsWith p (skipn k s) = false).
Proof.
  revert i; induction s as [|c t IH]; intros i Hi H.
  - cbn [indexOf_from] in *. destruct (startsWith p []) eqn:E; [|congruence].
    exists 0%nat. repeat split; [lia | lia | exact E | intros k Hk; lia].
  - cbn [indexOf_from] in *. destruct (startsWith p (c :: t)) eqn:E.
    + exists 0%nat. repeat split; [lia | simpl; lia | exact E | intros k Hk; lia].
    + destruct (IH (i + 1)%Z ltac:(lia) H) as [n [E1 [L [F B]]]].
      exists (S n). repeat split.
      * rewrite E1. lia.
      * simpl; lia.
      * exact F.
      * intros [|k] Hk; [exact E | apply B; lia].
Qed.

(** [lastIndexOf] finds the last occurrence, or there is none. *)
Lemma lastIndexOf_from_last (p s : jsstring) (i : Z) :
  (0 <= i)%Z ->
  (lastIndexOf_from p s i = (-1)%Z
   /\ forall k, (k <= List.length s)%nat -> startsWith p (skipn k s) = false)
  \/ exists n,
       lastIndexOf_from p s i = (i + Z.of_nat n)%Z
       /\ (n <= List.length s)%nat
       /\ startsWith p (skipn n s) = true
       /\ (forall k, (n < k <= List.length s)%nat ->
                     startsWith p (skipn k s) = false).
Proof.
  revert i; induction s as [|c t IH]; intros i Hi.
  - cbn [lastIndexOf_from]. destruct (startsWith p []) eqn:E.
    + right. exists 0%nat. repeat split; [lia | lia | exact E |].
      intros k Hk; simpl in Hk; lia.
    + left. split; [reflexivity|]. intros [|k] Hk; [exact E | simpl in Hk; lia].
  - cbn [lastIndexOf_from].
    destruct (IH (i + 1)%Z ltac:(lia)) as [[E1 A] | [n [E1 [L [F A]]]]].
    + rewrite E1. cbn [Z.eqb Pos.eqb]. destruct (startsWith p (c :: t)) eqn:E.
      * right. exists 0%nat. repeat split; [lia | simpl; lia | exact E |].
        intros [|k] Hk; [lia | apply A; simpl in Hk; lia].
      * left. split; [reflexivity|].
        intros [|k] Hk; [exact E | apply A; simpl in Hk; lia].
    + rewrite E1. destruct (Z.eqb_spec (i + 1 + Z.of_nat n) (-1)) as [X|_]; [lia|].
      right. exists (S n). repeat split; [lia | simpl; lia | exact F |].
      intros [|k] Hk; [lia | apply A; simpl in Hk; lia].
Qed.

(** With both indices found, the slice is the text from the first [{] to
    the last [}], both included. *)
Lemma json_slice_inclusive (cleanText : jsstring) :
  braces_found cleanText = true ->
  exists n m,
    indexOf cleanText (js "{") = Z.of_nat n
    /\ lastIndexOf cleanText (js "}") = Z.of_nat m
    /\ startsWith (js "{") (skipn n cleanText) = true
    /\ (forall k, (k < n)%nat -> startsWith (js "{") (skipn k cleanText) = false)
    /\ startsWith (js "}") (skipn m cleanText) = true
    /\ (forall k, (m < k <= List.length cleanText)%nat ->
                  startsWith (js "}") (skipn k cleanText) = false)
    /\ json_slice cleanText = firstn (m + 1 - n) (skipn n cleanText).
Proof.
  unfold braces_found, json_slice, indexOf, lastIndexOf. intros H.
  apply negb_true_iff, orb_false_iff in H as [H1 H2].
  apply Z.eqb_neq in H1, H2.
  destruct (indexOf_from_first (js "{") cleanText 0 ltac:(lia) H1)
    as [n [E1 [L1 [F1 B1]]]].
  destruct (lastIndexOf_from_last (js "}") cleanText 0 ltac:(lia))
    as [[E2 _] | [m [E2 [L2 [F2 A2]]]]]; [congruence|].
  exists n, m. rewrite E1, E2.
  pose proof (startsWith_nonempty _ _ _ _ F2) as L3.
  repeat split; try assumption; try (f_equal; lia).
  unfold slice.
  destruct (Z.ltb_spec (0 + Z.of_nat n) 0); [lia|].
  destruct (Z.ltb_spec (0 + Z.of_nat m + 1) 0); [lia|].
  f_equal; [|f_equal]; lia.
Qed.

(** ** The JSON routes once the model has answered *)

Lemma json_route_replied (route : JsonRoute) (host : Host) (body : object)
  (r : jsstring) :
  model_replies route host body r ->
  exists pre label,
    parse_calls pre = []
    /\ handle route host body =
         if braces_found (cleanText_of r) then
           match JSON_parse host (json_slice (cleanText_of r)) with
           | Throw m =>
               (pre ++ [ JSON_parse_call (json_slice (cleanText_of r));
                         console_error label (LogError m) ],
                error_response 500 m)
           | Ok parsed =>
               match route with
               | Solve =>
                   (pre ++ [ JSON_parse_call (json_slice (cleanText_of r)) ],
                    {| status := 200; payload := Json parsed |})
               | Analyze =>
                   if validate parsed then
                     (pre ++ [ JSON_parse_call (json_slice (cleanText_of r)) ],
                      {| status := 200; payload := Json parsed |})
                   else
                     (pre ++ [ JSON_parse_call (json_slice (cleanText_of r));
                               console_warn
                                 (warning_sign ++ js " Schema validation failed:")
                                 (LogErrors (validate_errors parsed)) ],
                      {| status := 422;
                         payload := ValidationFailure
                                      (js "Response schema validation failed")
                                      (validate_errors parsed) parsed |})
               end
           end
         else (pre, error_response 400 (js "No valid JSON found")).
Proof.
  intros [p [Ht [Hp H]]]. destruct route; cbn [handle].
  - rewrite (analyze_replied host body p Ht Hp r H). cbv zeta.
    eexists. eexists. split; [|reflexivity]. reflexivity.
  - destruct H as [combined [q [Hq [Hc [Hs H]]]]].
    rewrite (solve_replied host body p Ht Hp q combined Hq Hc Hs r H). cbv zeta.
    eexists. eexists. split; [|reflexivity]. reflexivity.
Qed.

Lemma parse_calls_app (t u : list Event) :
  parse_calls (t ++ u) = parse_calls t ++ parse_calls u.
Proof. apply flat_map_app. Qed.

(** One call of [JSON.parse] when both braces are found, none otherwise. *)
Lemma json_route_parse_calls (route : JsonRoute) (host : Host) (body : object)
  (r : jsstring) :
  model_replies route host body r ->
  parse_calls (fst (handle route host body)) =
    if braces_found (cleanText_of r) then [json_slice (cleanText_of r)] else [].
Proof.
  intros H. destruct (json_route_replied route host body r H)
    as [pre [label [Hpre ->]]].
  destruct (braces_found (cleanText_of r)); [|exact Hpre].
  destruct (JSON_parse host _) as [parsed|m].
  - destruct route; [destruct (validate parsed)|];
      cbn [fst]; rewrite parse_calls_app, Hpre; reflexivity.
  - cbn [fst]; rewrite parse_calls_app, Hpre; reflexivity.
Qed.

(** * The claims *)

(** ** Request intake *)

(** On a parsed body: a body that has no [passage] is answered 400 by every
    route, and so is a body of [/solve] that has no [questions]; the trace of
    the handler is empty, so the model was not called. *)
Theorem missing_field_rejected_before_model
  (host : Host) (body body' : object) :
  Get body (js "passage") = None ->
  Get body' (js "questions") = None ->
  analyze host body = ([], error_response 400 (js "Passage is required"))
  /\ mindmap host body = ([], error_response 400 (js "Passage is required"))
  /\ solve host body =
       ([], error_response 400 (js "Passage and questions are required"))
  /\ solve host body' =
       ([], error_response 400 (js "Passage and questions are required"))
  /\ model_calls (fst (analyze host body)) = []
  /\ model_calls (fst (mindmap host body)) = []
  /\ model_calls (fst (solve host body)) = []
  /\ model_calls (fst (solve host body')) = [].
Proof.
  intros Hp Hq.
  assert (Fp : ToBoolean (Get body (js "passage")) = false) by (rewrite Hp; reflexivity).
  assert (Fq : ToBoolean (Get body' (js "questions")) = false) by (rewrite Hq; reflexivity).
  rewrite (analyze_rejects host body Fp), (mindmap_rejects host body Fp),
    (solve_rejects host body (or_introl Fp)),
    (solve_rejects host body' (or_intror Fq)).
  repeat split.
Qed.

Lemma missing_field_rejected_before_model_witness :
  Get [] (js "passage") = None
  /\ Get Mock.passage_body (js "questions") = None
  /\ analyze (Mock.host (Ok []) []) [] =
       ([], error_response 400 (js "Passage is required"))
  /\ solve (Mock.host (Ok []) []) Mock.passage_body =
       ([], error_response 400 (js "Passage and questions are required")).
Proof.
  pose proof (missing_field_rejected_before_model (Mock.host (Ok []) []) []
                Mock.passage_body eq_refl eq_refl) as H.
  split; [reflexivity|]. split; [reflexivity|].
  split; [apply H | apply H].
Defined.

(** C4: the handlers reject a parsed body without [passage] (or, on
    [/solve], without [questions]) with 400 and an empty trace, but a request
    that no body parser took, whose [req.body] is [undefined], misses the
    guard: the destructuring throws, and every route answers 500 with the
    message of the [TypeError] instead of 400.  The model is not called in
    either case. *)
Theorem request_without_body_is_answered_500 (host : Host) :
  let thrown (label : jsstring) :=
    ([ console_error label (LogError TypeError_destructure) ],
     error_response 500 TypeError_destructure) in
  analyze_request host None = thrown (cross_mark ++ js " /analyze error:")
  /\ mindmap_request host None = thrown (cross_mark ++ js " /mindmap error:")
  /\ solve_request host None = thrown (cross_mark ++ js " /solve error:")
  /\ status (snd (analyze_request host None)) = 500%Z
  /\ status (snd (mindmap_request host None)) = 500%Z
  /\ status (snd (solve_request host None)) = 500%Z
  /\ model_calls (fst (analyze_request host None)) = []
  /\ model_calls (fst (mindmap_request host None)) = []
  /\ model_calls (fst (solve_request host None)) = []
  /\ (forall body,
        Get body (js "passage") = None ->
        analyze_request host (Some body) =
          ([], error_response 400 (js "Passage is required"))
        /\ mindmap_request host (Some body) =
             ([], error_response 400 (js "Passage is required"))
        /\ solve_request host (Some body) =
             ([], error_response 400 (js "Passage and questions are required")))
  /\ (forall body,
        Get body (js "questions") = None ->
        solve_request host (Some body) =
          ([], error_response 400 (js "Passage and questions are required"))).
Proof.
  cbv zeta. do 9 (split; [reflexivity|]). split.
  - intros body H.
    assert (F : ToBoolean (Get body (js "passage")) = false)
      by (rewrite H; reflexivity).
    cbn [analyze_request mindmap_request solve_request].
    rewrite (analyze_rejects host body F), (mindmap_rejects host body F),
      (solve_rejects host body (or_introl F)).
    repeat split.
  - intros body H.
    assert (F : ToBoolean (Get body (js "questions")) = false)
      by (rewrite H; reflexivity).
    cbn [solve_request]. exact (solve_rejects host body (or_intror F)).
Qed.

(** C9: a field that is present but falsy is rejected like a missing one:
    the guards test the truthiness of the value.  The empty string is
    falsy. *)
Theorem falsy_field_rejected_like_missing
  (host : Host) (body body' : object) :
  ToBoolean (Get body (js "passage")) = false ->
  ToBoolean (Get body' (js "questions")) = false ->
  analyze host body = ([], error_response 400 (js "Passage is required"))
  /\ mindmap host body = ([], error_response 400 (js "Passage is required"))
  /\ solve host body =
       ([], error_response 400 (js "Passage and questions are required"))
  /\ solve host body' =
       ([], error_response 400 (js "Passage and questions are required"))
  /\ analyze host body = analyze host []
  /\ mindmap host body = mindmap host []
  /\ solve host body = solve host []
  /\ solve host body' = solve host []
  /\ ToBoolean (Some (JStr [])) = false.
Proof.
  intros Fp Fq.
  rewrite (analyze_rejects host body Fp), (mindmap_rejects host body Fp),
    (solve_rejects host body (or_introl Fp)),
    (solve_rejects host body' (or_intror Fq)).
  repeat split.
Qed.

Lemma falsy_field_rejected_like_missing_witness :
  let body := [ (js "passage", JStr []) ] in
  let body' := [ (js "passage", JStr (js "Some text.")); (js "questions", JStr []) ] in
  ToBoolean (Get body (js "passage")) = false
  /\ ToBoolean (Get body' (js "questions")) = false
  /\ analyze (Mock.host (Ok []) []) body =
       ([], error_response 400 (js "Passage is required"))
  /\ solve (Mock.host (Ok []) []) body' =
       ([], error_response 400 (js "Passage and questions are required")).
Proof.
  intros body body'.
  pose proof (falsy_field_rejected_like_missing (Mock.host (Ok []) []) body
                body' eq_refl eq_refl) as H.
  split; [reflexivity|]. split; [reflexivity|].
  split; [apply H | apply H].
Defined.

(** ** Fences *)

(** C8: the body [/mindmap] sends is a function of the model's text alone,
    the text with its fences removed and trimmed: two invocations with the
    same input whose models answer the same text send the same response. *)
Theorem mindmap_output_determined_by_reply
  (host1 host2 : Host) (body : object) (p r : jsstring) :
  ToBoolean (Get body (js "passage")) = true ->
  ToString_value (Get body (js "passage")) = Ok p ->
  model_text host1 (mindmap_prompt host1 p) = Ok r ->
  model_text host2 (mindmap_prompt host2 p) = Ok r ->
  snd (mindmap host1 body) = snd (mindmap host2 body)
  /\ snd (mindmap host1 body) =
       {| status := 200;
          payload := Send (trim (replace_html_fences (trim r))) |}.
Proof.
  intros Ht Hp H1 H2.
  rewrite (mindmap_replied host1 body p Ht Hp r H1),
    (mindmap_replied host2 body p Ht Hp r H2).
  split; reflexivity.
Qed.

Lemma mindmap_output_determined_by_reply_witness :
  let reply := js "```html
<ul><li>x</li></ul>
```" in
  let host1 := Mock.host (Ok reply) [] in
  let host2 := Mock.host (Ok reply) [ (js "{}", JObj []) ] in
  snd (mindmap host1 Mock.passage_body) = snd (mindmap host2 Mock.passage_body)
  /\ snd (mindmap host1 Mock.passage_body) =
       {| status := 200; payload := Send (js "<ul><li>x</li></ul>") |}.
Proof.
  intros reply host1 host2.
  exact (mindmap_output_determined_by_reply host1 host2 Mock.passage_body
           (js "Some text.") reply eq_refl eq_refl eq_refl eq_refl).
Defined.

(** C10, as it is worded, fails: not every occurrence of a marker is
    deleted.  In four backticks and [json] the marker [```json] occurs at
    index 1, but the scan has deleted the first three backticks by then: a
    backtick and [json] are left, not the backtick alone. *)
Lemma overlapping_marker_is_not_deleted :
  let reply := js "````json" in
  reply = js "`" ++ fence_json
  /\ indexOf reply fence_json = 1%Z
  /\ replace_json_fences reply = js "`json"
  /\ replace_json_fences reply
     <> replace_json_fences (js "`") ++ replace_json_fences [].
Proof.
  vm_compute. repeat split. discriminate.
Qed.

(** C10 (amended): fence removal is a global replacement, not the removal
    of a wrapper.  Scanning from the left, it deletes each match of the
    marker with the route's language tag and otherwise of the bare marker,
    goes on after the match and keeps every other code unit; these equations
    leave no choice, and nothing of the form [```] is left.  A marker that
    does not directly follow a backtick is therefore deleted wherever it
    stands, whatever comes before and after it.  The JSON routes delete
    [```json] and [```], so that [```html] leaves [html] behind; [/mindmap]
    deletes [```html] and [```], so that [```json] leaves [json] behind.
    What the JSON routes search and parse is the reply cleaned the first
    way, what [/mindmap] sends is the reply cleaned the second way. *)
Theorem fence_removal_is_leftmost_and_global (reply a s : jsstring) :
  ends_with_backtick a = false ->
  indexOf (replace_json_fences reply) fence = (-1)%Z
  /\ indexOf (replace_html_fences reply) fence = (-1)%Z
  /\ leftmost_removal (js "json") replace_json_fences
  /\ leftmost_removal (js "html") replace_html_fences
  /\ (forall f, leftmost_removal (js "json") f ->
                forall x, f x = replace_json_fences x)
  /\ (forall f, leftmost_removal (js "html") f ->
                forall x, f x = replace_html_fences x)
  /\ replace_json_fences (a ++ fence_json ++ s) =
       replace_json_fences a ++ replace_json_fences s
  /\ replace_json_fences (a ++ fence_html ++ s) =
       replace_json_fences a ++ js "html" ++ replace_json_fences s
  /\ replace_html_fences (a ++ fence_html ++ s) =
       replace_html_fences a ++ replace_html_fences s
  /\ replace_html_fences (a ++ fence_json ++ s) =
       replace_html_fences a ++ js "json" ++ replace_html_fences s
  /\ (startsWith (js "json") s = false ->
      replace_json_fences (a ++ fence ++ s) =
        replace_json_fences a ++ replace_json_fences s)
  /\ (startsWith (js "html") s = false ->
      replace_html_fences (a ++ fence ++ s) =
        replace_html_fences a ++ replace_html_fences s)
  /\ (forall route host body,
        model_replies route host body reply ->
        parse_calls (fst (handle route host body)) =
          if braces_found (trim (replace_json_fences (trim reply)))
          then [ json_slice (trim (replace_json_fences (trim reply))) ]
          else [])
  /\ (forall host body p,
        ToBoolean (Get body (js "passage")) = true ->
        ToString_value (Get body (js "passage")) = Ok p ->
        model_text host (mindmap_prompt host p) = Ok reply ->
        payload (snd (mindmap host body)) =
          Send (trim (replace_html_fences (trim reply)))).
Proof.
  intros Ha.
  assert (R1 : forall route host body,
             model_replies route host body reply ->
             parse_calls (fst (handle route host body)) =
               if braces_found (trim (replace_json_fences (trim reply)))
               then [ json_slice (trim (replace_json_fences (trim reply))) ]
               else []).
  { intros route host body H. exact (json_route_parse_calls route host body reply H). }
  assert (R2 : forall host body p,
             ToBoolean (Get body (js "passage")) = true ->
             ToString_value (Get body (js "passage")) = Ok p ->
             model_text host (mindmap_prompt host p) = Ok reply ->
             payload (snd (mindmap host body)) =
               Send (trim (replace_html_fences (trim reply)))).
  { intros host body p Ht Hp H.
    rewrite (mindmap_replied host body p Ht Hp reply H). reflexivity. }
  revert R1 R2.
  unfold replace_json_fences, replace_html_fences, indexOf. intros R1 R2.
  change [fence_json; fence] with [fence ++ js "json"; fence].
  change [fence_html; fence] with [fence ++ js "html"; fence].
  assert (J : forall t, startsWith [96%N] t = true ->
                replace_all [fence ++ js "json"; fence] 0 (a ++ t)
                = replace_all [fence ++ js "json"; fence] 0 a
                  ++ replace_all [fence ++ js "json"; fence] 0 t).
  { intros t Ht. exact (replace_app (js "json") eq_refl a t Ha Ht). }
  assert (K : forall t, startsWith [96%N] t = true ->
                replace_all [fence ++ js "html"; fence] 0 (a ++ t)
                = replace_all [fence ++ js "html"; fence] 0 a
                  ++ replace_all [fence ++ js "html"; fence] 0 t).
  { intros t Ht. exact (replace_app (js "html") eq_refl a t Ha Ht). }
  split; [apply replace_no_fence|]. split; [apply replace_no_fence|].
  split; [apply replace_is_leftmost_removal|].
  split; [apply replace_is_leftmost_removal|].
  split; [intros f Hf x; apply leftmost_removal_unique; exact Hf|].
  split; [intros f Hf x; apply leftmost_removal_unique; exact Hf|].
  split; [rewrite (J (fence_json ++ s) eq_refl); reflexivity|].
  split; [rewrite (J (fence_html ++ s) eq_refl); reflexivity|].
  split; [rewrite (K (fence_html ++ s) eq_refl); reflexivity|].
  split; [rewrite (K (fence_json ++ s) eq_refl); reflexivity|].
  split.
  { intros H. rewrite (J (fence ++ s) eq_refl).
    rewrite (replace_fence (js "json") s H). reflexivity. }
  split.
  { intros H. rewrite (K (fence ++ s) eq_refl).
    rewrite (replace_fence (js "html") s H). reflexivity. }
  split; [exact R1 | exact R2].
Qed.

Lemma fence_removal_is_leftmost_and_global_witness :
  ends_with_backtick (js "see `x`: ") = false
  /\ replace_json_fences (js "see `x`: ```json{}") = js "see `x`: {}"
  /\ replace_json_fences (js "see `x`: ```html{}") = js "see `x`: html{}"
  /\ replace_html_fences (js "see `x`: ```json{}") = js "see `x`: json{}"
  /\ replace_html_fences (js "see `x`: ```html{}") = js "see `x`: {}".
Proof.
  pose proof (fence_removal_is_leftmost_and_global [] (js "see `x`: ")
                (js "{}") eq_refl)
    as [_ [_ [_ [_ [_ [_ [H1 [H2 [H3 [H4 _]]]]]]]]]].
  split; [reflexivity|]. split; [exact H1|]. split; [exact H2|].
  split; [exact H4 | exact H3].
Defined.

(** ** JSON extraction *)

(** C1, as the specification words it, fails: the JSON routes do not
    remove a [```html] marker, they remove its backticks.  On the reply
    [{"a":"```html"}] the text handed to [JSON.parse] is [{"a":"html"}], not
    the slice [{"a":""}] of the text with all three markers removed. *)
Lemma html_marker_survives_in_parsed_text :
  let reply := jsq "{'a':'```html'}" in
  let spec_clean := trim (spec_remove_fences (trim reply)) in
  parse_calls (fst (analyze (Mock.host (Ok reply) []) Mock.passage_body)) =
    [ jsq "{'a':'html'}" ]
  /\ json_slice spec_clean = jsq "{'a':''}"
  /\ parse_calls (fst (analyze (Mock.host (Ok reply) []) Mock.passage_body))
     <> [ json_slice spec_clean ].
Proof.
  vm_compute. split; [reflexivity|]. split; [reflexivity | discriminate].
Qed.

(** [/analyze] of the first revision once the model has answered [r]:
    the calls to [JSON.parse], and the response when a brace is missing. *)
Lemma minimal_analyze_replied (host : Host) (body : object) (r : jsstring) :
  model_replies Analyze host body r ->
  parse_calls (fst (Minimal.analyze host body)) =
    (if braces_found (cleanText_of r) then [ json_slice (cleanText_of r) ]
     else [])
  /\ (braces_found (cleanText_of r) = false ->
      snd (Minimal.analyze host body) =
        error_response 400 (js "No valid JSON found in AI response")).
Proof.
  intros [p [Ht [Hp H]]].
  unfold Minimal.analyze, braces_found, json_slice, cleanText_of.
  unfold analyze_prompt in H.
  rewrite Ht, Hp. cbn [negb lift bind emit ret app].
  rewrite H. cbn [negb lift bind emit ret app].
  destruct ((indexOf _ _ =? -1)%Z || (lastIndexOf _ _ =? -1)%Z);
    cbn [negb]; [split; reflexivity|].
  split; [|discriminate].
  destruct (JSON_parse host _) as [parsed|m];
    cbn [negb lift bind emit ret app]; [|reflexivity].
  destruct (validate parsed); reflexivity.
Qed.

(** C1 (amended): on [/analyze], in both revisions of [server.js], and on
    [/solve], the reply is cleaned by the global replacement of [```json]
    and [```], a leftmost removal that leaves no [```] (and that has no
    alternative for [```html]), and trimmed.  When the first [{] or the last
    [}] is absent the response is 400 with a message that no valid JSON was
    found, and [JSON.parse] is not called; otherwise [JSON.parse] is called
    once, on [cleanText.slice(start, end + 1)], the text from the first [{]
    to the last [}] inclusive (empty when that [}] stands before that
    [{]). *)
Theorem json_routes_extract_between_braces
  (route : JsonRoute) (host : Host) (body : object) (r : jsstring) :
  model_replies route host body r ->
  let cleanText := trim (replace_json_fences (trim r)) in
  let start := indexOf cleanText (js "{") in
  let end_ := lastIndexOf cleanText (js "}") in
  leftmost_removal (js "json") replace_json_fences
  /\ indexOf (replace_json_fences (trim r)) fence = (-1)%Z
  /\ (start = (-1)%Z \/ end_ = (-1)%Z ->
      snd (handle route host body) =
        error_response 400 (js "No valid JSON found")
      /\ parse_calls (fst (handle route host body)) = []
      /\ (route = Analyze ->
          snd (Minimal.analyze host body) =
            error_response 400 (js "No valid JSON found in AI response")
          /\ parse_calls (fst (Minimal.analyze host body)) = []))
  /\ (start <> (-1)%Z -> end_ <> (-1)%Z ->
      parse_calls (fst (handle route host body)) =
        [ slice cleanText start (end_ + 1) ]
      /\ (route = Analyze ->
          parse_calls (fst (Minimal.analyze host body)) =
            [ slice cleanText start (end_ + 1) ])
      /\ slice cleanText start (end_ + 1) =
           firstn (Z.to_nat (end_ + 1 - start))
             (skipn (Z.to_nat start) cleanText)).
Proof.
  intros H cleanText start end_.
  split.
  { unfold replace_json_fences.
    change [fence_json; fence] with [fence ++ js "json"; fence].
    apply replace_is_leftmost_removal. }
  split.
  { unfold replace_json_fences, indexOf.
    change [fence_json; fence] with [fence ++ js "json"; fence].
    apply replace_no_fence. }
  pose proof (json_route_parse_calls route host body r H) as P.
  destruct (json_route_replied route host body r H) as [pre [label [_ E]]].
  change (cleanText_of r) with cleanText in *.
  split.
  - intros D.
    assert (B : braces_found cleanText = false).
    { unfold braces_found. fold start end_. apply negb_false_iff, orb_true_iff.
      destruct D as [-> | ->]; [left | right]; reflexivity. }
    rewrite B in *. split; [rewrite E; reflexivity|]. split; [exact P|].
    intros ->. destruct (minimal_analyze_replied host body r H) as [Q1 Q2].
    change (cleanText_of r) with cleanText in *. rewrite B in Q1.
    split; [exact (Q2 B) | exact Q1].
  - intros S1 S2.
    assert (B : braces_found cleanText = true).
    { unfold braces_found. fold start end_. apply negb_true_iff, orb_false_iff.
      split; apply Z.eqb_neq; assumption. }
    rewrite B in P. split; [exact P|]. split.
    + intros ->. destruct (minimal_analyze_replied host body r H) as [Q1 _].
      change (cleanText_of r) with cleanText in *. rewrite B in Q1. exact Q1.
    + destruct (json_slice_inclusive cleanText B)
        as [n [m [E1 [E2 [_ [_ [_ [_ E3]]]]]]]].
      unfold json_slice in E3. fold start end_ in E1, E2, E3.
      rewrite E3, E1, E2. f_equal; [|f_equal]; lia.
Qed.

Lemma json_routes_extract_between_braces_witness :
  let reply := jsq "Here it is: ```json
{'a':{'b':2}}
``` Done." in
  let host := Mock.host (Ok reply) [ (jsq "{'a':{'b':2}}", JObj []) ] in
  model_replies Analyze host Mock.passage_body reply
  /\ parse_calls (fst (analyze host Mock.passage_body)) =
       [ jsq "{'a':{'b':2}}" ]
  /\ parse_calls (fst (Minimal.analyze host Mock.passage_body)) =
       [ jsq "{'a':{'b':2}}" ].
Proof.
  intros reply host.
  assert (H : model_replies Analyze host Mock.passage_body reply).
  { exists (js "Some text."). repeat split. }
  split; [exact H|].
  pose proof (proj2 (proj2 (proj2 (json_routes_extract_between_braces
                                     Analyze host Mock.passage_body reply H)))
                ltac:(vm_compute; discriminate)
                ltac:(vm_compute; discriminate)) as [P1 [P2 _]].
  split; [exact P1 | exact (P2 eq_refl)].
Defined.

(** C6: when the cleaned reply is [prefix {"a":1} middle {"b":2} suffix],
    [JSON.parse] receives [{"a":1} middle {"b":2}], from the first [{] to
    the last [}]: no brace matching is done. *)
Theorem naive_first_to_last_slice
  (route : JsonRoute) (host : Host) (body : object) (r : jsstring) :
  model_replies route host body r ->
  trim (replace_json_fences (trim r)) =
    jsq "prefix {'a':1} middle {'b':2} suffix" ->
  parse_calls (fst (handle route host body)) = [ jsq "{'a':1} middle {'b':2}" ].
Proof.
  intros H E. rewrite (json_route_parse_calls route host body r H).
  unfold cleanText_of. rewrite E. reflexivity.
Qed.

Lemma naive_first_to_last_slice_witness :
  let reply := jsq "prefix {'a':1} middle {'b':2} suffix" in
  let host := Mock.host (Ok reply) [] in
  model_replies Analyze host Mock.passage_body reply
  /\ trim (replace_json_fences (trim reply)) = reply
  /\ parse_calls (fst (analyze host Mock.passage_body)) =
       [ jsq "{'a':1} middle {'b':2}" ].
Proof.
  intros reply host.
  assert (H : model_replies Analyze host Mock.passage_body reply).
  { exists (js "Some text."). repeat split. }
  split; [exact H|]. split; [reflexivity|].
  exact (naive_first_to_last_slice Analyze host Mock.passage_body reply H
           eq_refl).
Defined.

(** ** Failures *)



(** C3: when the reply of [/analyze] parses to a value that fails the
    schema, the response is 422; its body carries the errors of the
    validator, of which there is at least one, and the parsed value itself
    under [rawOutput]. *)
Theorem invalid_analysis_is_422
  (host : Host) (body : object) (r : jsstring) (parsed : json) :
  model_replies Analyze host body r ->
  braces_found (cleanText_of r) = true ->
  JSON_parse host (json_slice (cleanText_of r)) = Ok parsed ->
  validate parsed = false ->
  snd (analyze host body) =
    {| status := 422;
       payload := ValidationFailure (js "Response schema validation failed")
                    (validate_errors parsed) parsed |}
  /\ validate_errors parsed <> [].
Proof.
  intros H B P V.
  destruct (json_route_replied Analyze host body r H) as [pre [label [_ E]]].
  cbn [handle] in E. rewrite E, B, P, V.
  split; [reflexivity | apply validate_errors_nonempty; exact V].
Qed.

Lemma invalid_analysis_is_422_witness :
  let reply := jsq "{'the analysis without purpose'}" in
  let parsed := JObj Mock.analysis_without_purpose in
  let host := Mock.host (Ok reply) [ (reply, parsed) ] in
  model_replies Analyze host Mock.passage_body reply
  /\ validate parsed = false
  /\ snd (analyze host Mock.passage_body) =
       {| status := 422;
          payload := ValidationFailure (js "Response schema validation failed")
                       [ {| instancePath := [];
                            schemaPath := js "#/required";
                            keyword := js "required";
                            params := P_missingProperty (js "purpose") |} ]
                       parsed |}.
Proof.
  intros reply parsed host.
  assert (H : model_replies Analyze host Mock.passage_body reply).
  { exists (js "Some text."). repeat split. }
  split; [exact H|]. split; [reflexivity|].
  exact (proj1 (invalid_analysis_is_422 host Mock.passage_body reply parsed H
                  eq_refl eq_refl eq_refl)).
Defined.

(** ** The schema *)

(** [/analyze] answers 200 only with a value the validator accepted. *)
Lemma analyze_200_validated (host : Host) (body : object) (t : list Event)
  (j : json) :
  analyze host body = (t, {| status := 200; payload := Json j |}) ->
  validate j = true.
Proof.
  unfold analyze, generateWithModel.
  destruct (ToBoolean (Get body (js "passage"))); cbn [negb];
    [|cbn; discriminate].
  destruct (ToString_value (Get body (js "passage"))) as [p|m];
    cbn [lift bind emit ret app try_catch]; [|discriminate].
  destruct (model_text host (analyze_prompt host p)) as [r|m];
    cbn [lift bind emit ret app try_catch]; [|discriminate].
  destruct ((indexOf _ _ =? -1)%Z || (lastIndexOf _ _ =? -1)%Z);
    cbn [lift bind emit ret app try_catch]; [discriminate|].
  destruct (JSON_parse host _) as [parsed|m];
    cbn [lift bind emit ret app try_catch]; [|discriminate].
  destruct (validate parsed) eqn:V; cbn [negb lift bind emit ret app try_catch];
    [|discriminate].
  intros E. injection E as _ <-. exact V.
Qed.

(** C2: a value the validator of [/analyze] accepts, and so every body
    [/analyze] returns with status 200, is an object with the seven keys
    [vocabulary], [title], [main_idea], [facts_opinions_inferences],
    [transitions], [keywords] and [purpose], all present, and no other
    key. *)
Theorem accepted_analysis_has_exactly_seven_keys
  (host : Host) (body : object) (t : list Event) (j : json) :
  validate j = true
  \/ analyze host body = (t, {| status := 200; payload := Json j |}) ->
  exactly_seven_keys j.
Proof.
  intros [V | E].
  - apply validate_exactly_seven. exact V.
  - apply validate_exactly_seven. exact (analyze_200_validated host body t j E).
Qed.

Lemma accepted_analysis_has_exactly_seven_keys_witness :
  let reply := jsq "```json
{'the analysis'}
```" in
  let host := Mock.host (Ok reply) [ (jsq "{'the analysis'}", JObj Mock.analysis) ] in
  snd (analyze host Mock.passage_body) =
    {| status := 200; payload := Json (JObj Mock.analysis) |}
  /\ exactly_seven_keys (JObj Mock.analysis).
Proof.
  intros reply host. split; [reflexivity|].
  exact (accepted_analysis_has_exactly_seven_keys host Mock.passage_body
           (fst (analyze host Mock.passage_body)) (JObj Mock.analysis)
           (or_intror eq_refl)).
Defined.

(** ** The prompt of [/solve] *)


(** [/solve] calls the model once, with the prompt made of the fields. *)
Lemma solve_model_calls (host : Host) (body : object) (p q : jsstring)
  (combined : value) :
  ToBoolean (Get body (js "passage")) = true ->
  ToString_value (Get body (js "passage")) = Ok p ->
  ToBoolean (Get body (js "questions")) = true ->
  combinedQuestions (Get body (js "questions")) = Ok combined ->
  ToString_value combined = Ok q ->
  model_calls (fst (solve host body)) = [ solve_prompt host p q ].
Proof.
  intros Ht Hp Hq Hc Hs.
  destruct (model_text host (solve_prompt host p q)) as [r|m] eqn:R.
  - rewrite (solve_replied host body p Ht Hp q combined Hq Hc Hs r R). cbv zeta.
    destruct (braces_found (cleanText_of r)); [|reflexivity].
    destruct (JSON_parse host _); reflexivity.
  - rewrite (solve_model_failed host body p Ht Hp q combined Hq Hc Hs m R).
    reflexivity.
Qed.



(** * Further properties *)

(** ** The validator and the meaning of the schema *)

Lemma find_forallb {A : Type} (f g : A -> bool) (l : list A) :
  (forall x, g x = negb (f x)) ->
  (find f l = None <-> forallb g l = true).
Proof.
  intros H. induction l as [|x l IH]; cbn [find forallb]; [tauto|].
  rewrite H. destruct (f x); cbn [negb andb]; [|exact IH].
  split; discriminate.
Qed.

(** The validator accepts a value exactly when the value conforms. *)
Lemma first_error_conforms (s : Schema) :
  forall ip sp data, first_error s ip sp data = None <-> conforms s data = true.
Proof.
  induction s as [type enum properties items required additionalProperties
                    IHprops IHitems] using Schema_nested_ind.
  intros ip sp data.
  assert (Enum :
    match enum with
    | Some allowed =>
        if existsb (json_eqb data) allowed then None
        else Some {| instancePath := ip; schemaPath := sp ++ js "/" ++ js "enum";
                     keyword := js "enum"; params := P_allowedValues allowed |}
    | None => None
    end = None
    <-> match enum with
        | Some allowed => existsb (json_eqb data) allowed
        | None => true
        end = true).
  { destruct enum as [allowed|]; [|tauto].
    destruct (existsb (json_eqb data) allowed); split; congruence. }
  cbn [first_error conforms].
  destruct data as [| b | n | x | elems | fields].
  1-4: destruct type as [[]|]; cbn [checkDataType andb];
       first [ exact Enum | split; discriminate ].
  - (* arrays *)
    assert (Items :
      match items with
      | Some sub =>
          (fix each (i : N) (l : list json) : option ErrorObject :=
             match l with
             | [] => None
             | x :: l' =>
                 match first_error sub (ip ++ js "/" ++ decimal i)
                         (sp ++ js "/items") x with
                 | Some e => Some e
                 | None => each (N.succ i) l'
                 end
             end) 0%N elems
      | None => None
      end = None
      <-> match items with
          | Some sub => forallb (conforms sub) elems
          | None => true
          end = true).
    { clear Enum. destruct items as [sub|]; [|tauto].
      generalize 0%N. induction elems as [|x l IH]; intros i; [tauto|].
      cbn [forallb]. rewrite andb_true_iff, <- (IH (N.succ i)),
        <- (IHitems (ip ++ js "/" ++ decimal i) (sp ++ js "/items") x).
      destruct (first_error sub _ _ x); [|tauto].
      split; [discriminate | intros [X _]; discriminate]. }
    destruct type as [[]|]; cbn [checkDataType andb];
      try (split; discriminate).
    all: rewrite andb_true_iff, <- Items, <- Enum;
      match goal with
      | |- match ?T with _ => _ end = None <-> _ => destruct T
      end; [split; [discriminate | intros [X _]; discriminate] | tauto].
  - (* objects *)
    rewrite <- !andb_assoc.
    assert (Typed :
      match find (fun k => match Get fields k with None => true | Some _ => false end)
                 required with
      | Some k =>
          Some {| instancePath := ip; schemaPath := sp ++ js "/" ++ js "required";
                  keyword := js "required"; params := P_missingProperty k |}
      | None =>
          match (if additionalProperties then None
                 else find (fun kv => negb (has_key (map fst properties) (fst kv)))
                           fields) with
          | Some kv =>
              Some {| instancePath := ip;
                      schemaPath := sp ++ js "/" ++ js "additionalProperties";
                      keyword := js "additionalProperties";
                      params := P_additionalProperty (fst kv) |}
          | None =>
              (fix each (ps : list (jsstring * Schema)) : option ErrorObject :=
                 match ps with
                 | [] => None
                 | (k, sub) :: ps' =>
                     match Get fields k with
                     | None => each ps'
                     | Some x =>
                         match first_error sub (ip ++ js "/" ++ k)
                                 (sp ++ js "/properties/" ++ k) x with
                         | Some e => Some e
                         | None => each ps'
                         end
                     end
                 end) properties
          end
      end = None
      <-> forallb (fun k => match Get fields k with Some _ => true | None => false end)
            required
          && ((additionalProperties
               || forallb (fun kv => has_key (map fst properties) (fst kv)) fields)
              && (fix each (ps : list (jsstring * Schema)) : bool :=
                    match ps with
                    | [] => true
                    | (k, sub) :: ps' =>
                        match Get fields k with
                        | Some x => conforms sub x
                        | None => true
                        end && each ps'
                    end) properties) = true).
    { rewrite !andb_true_iff.
      rewrite <- (find_forallb
                    (fun k => match Get fields k with None => true | Some _ => false end)
                    (fun k => match Get fields k with Some _ => true | None => false end)
                    required)
        by (intros k; destruct (Get fields k); reflexivity).
      destruct (find _ required) as [k|];
        [split; [discriminate | intros [X _]; discriminate]|].
      assert (Each :
        (fix each (ps : list (jsstring * Schema)) : option ErrorObject :=
           match ps with
           | [] => None
           | (k, sub) :: ps' =>
               match Get fields k with
               | None => each ps'
               | Some x =>
                   match first_error sub (ip ++ js "/" ++ k)
                           (sp ++ js "/properties/" ++ k) x with
                   | Some e => Some e
                   | None => each ps'
                   end
               end
           end) properties = None
        <-> (fix each (ps : list (jsstring * Schema)) : bool :=
               match ps with
               | [] => true
               | (k, sub) :: ps' =>
                   match Get fields k with
                   | Some x => conforms sub x
                   | None => true
                   end && each ps'
               end) properties = true).
      { clear Enum. induction IHprops as [|[k sub] ps Hsub _ IH]; [tauto|].
        cbn [snd] in Hsub. rewrite andb_true_iff, <- IH.
        destruct (Get fields k) as [x|]; [|tauto].
        rewrite <- (Hsub (ip ++ js "/" ++ k) (sp ++ js "/properties/" ++ k) x).
        destruct (first_error sub _ _ x); [|tauto].
        split; [discriminate | intros [X _]; discriminate]. }
      destruct additionalProperties; cbn [orb].
      - rewrite <- Each. tauto.
      - rewrite <- (find_forallb
                      (fun kv : jsstring * json =>
                         negb (has_key (map fst properties) (fst kv)))
                      (fun kv => has_key (map fst properties) (fst kv)) fields)
          by (intros kv; rewrite negb_involutive; reflexivity).
        destruct (find _ fields) as [kv|];
          [split; [discriminate | intros [_ [X _]]; discriminate]|].
        rewrite <- Each. tauto. }
    destruct type as [[]|]; cbn [checkDataType andb];
      try (split; discriminate).
    all: rewrite andb_assoc, andb_assoc, andb_true_iff, <- andb_assoc, <- Typed, <- Enum;
      match goal with
      | |- match ?T with _ => _ end = None <-> _ => destruct T
      end; [split; [discriminate | intros [X _]; discriminate] | tauto].
Qed.

Lemma conforms_type_string (data : json) :
  conforms type_string data = true <-> is_string data.
Proof.
  unfold is_string. destruct data; cbn; split;
    try discriminate; try (intros [s E]; discriminate).
  - intros _. eexists; reflexivity.
  - reflexivity.
Qed.

Lemma conforms_string_enum (allowed : list jsstring) (data : json) :
  conforms (string_enum allowed) data = true <-> is_one_of allowed data.
Proof.
  unfold is_one_of.
  destruct data as [| b | n | x | elems | fields]; cbn [conforms string_enum checkDataType andb];
    try (split; [discriminate | intros [s [E _]]; discriminate]).
  rewrite existsb_exists. split.
  - intros [j [Hj E]]. apply in_map_iff in Hj as [a [<- Ha]].
    cbn [json_eqb] in E. apply str_eqb_eq in E. subst a.
    exists x. split; [reflexivity | exact Ha].
  - intros [s [E Hs]]. injection E as <-. exists (JStr x). split.
    + apply in_map. exact Hs.
    + cbn [json_eqb]. apply str_eqb_refl.
Qed.

Lemma conforms_type_array (sub : Schema) (P : json -> Prop) (data : json) :
  (forall e, conforms sub e = true <-> P e) ->
  (conforms (type_array sub) data = true <-> is_array_of P data).
Proof.
  intros H. unfold is_array_of.
  destruct data as [| b | n | x | elems | fields]; cbn [conforms type_array checkDataType andb];
    try (split; [discriminate | intros [es [E _]]; discriminate]).
  rewrite andb_true_r, forallb_forall. split.
  - intros A. exists elems. split; [reflexivity|].
    apply Forall_forall. intros e He. apply H, A, He.
  - intros [es [E A]]. injection E as <-. intros e He. apply H.
    rewrite Forall_forall in A. apply A, He.
Qed.

(** An object schema, keyword by keyword. *)
Lemma conforms_type_object (props : list (jsstring * Schema))
  (req : list jsstring) (addl : bool) (data : json) :
  conforms (type_object props req addl) data = true
  <-> exists o,
        data = JObj o
        /\ (forall k, In k req -> Get o k <> None)
        /\ (addl = false -> forall k v, In (k, v) o -> In k (map fst props))
        /\ Forall (fun ks => forall x, Get o (fst ks) = Some x ->
                                       conforms (snd ks) x = true) props.
Proof.
  destruct data as [| b | n | x | elems | o]; cbn [conforms type_object checkDataType andb];
    try (split; [discriminate | intros [o' [E _]]; discriminate]).
  rewrite andb_true_r, !andb_true_iff, forallb_forall.
  assert (Each :
    (fix each (ps : list (jsstring * Schema)) : bool :=
       match ps with
       | [] => true
       | (k, sub) :: ps' =>
           match Get o k with
           | Some x => conforms sub x
           | None => true
           end && each ps'
       end) props = true
    <-> Forall (fun ks => forall x, Get o (fst ks) = Some x ->
                                    conforms (snd ks) x = true) props).
  { induction props as [|[k sub] ps IH].
    - split; [constructor | reflexivity].
    - rewrite andb_true_iff, IH. split.
      + intros [A B]. constructor; [|exact B]. cbn [fst snd]. intros x E.
        rewrite E in A. exact A.
      + intros F. inversion F as [|? ? A B]; subst. split; [|exact B].
        cbn [fst snd] in A. destruct (Get o k) as [x|]; [apply A|]; reflexivity. }
  rewrite Each. split.
  - intros [[R C] F]. exists o. split; [reflexivity|]. split; [|split; [|exact F]].
    + intros k Hk E. specialize (R k Hk). rewrite E in R. discriminate.
    + intros -> k v Hkv. cbn [orb] in C. rewrite forallb_forall in C.
      apply has_key_In. exact (C (k, v) Hkv).
  - intros [o' [E [R [C F]]]]. injection E as <-. split; [split|exact F].
    + intros k Hk. specialize (R k Hk). destruct (Get o k); [reflexivity | congruence].
    + destruct addl; [reflexivity|]. cbn [orb]. apply forallb_forall.
      intros [k v] Hkv. apply has_key_In. exact (C eq_refl k v Hkv).
Qed.

(** An object schema that requires all its properties. *)
Lemma conforms_object_with (props : list (jsstring * Schema))
  (fields : list (jsstring * (json -> Prop))) (addl : bool) (data : json) :
  Forall2 (fun ks kp => fst ks = fst kp
                        /\ forall v, conforms (snd ks) v = true <-> snd kp v)
    props fields ->
  (conforms (type_object props (map fst props) addl) data = true
   <-> is_object_with fields data
       /\ (addl = false ->
           forall o k v, data = JObj o -> In (k, v) o -> In k (map fst props))).
Proof.
  intros H. rewrite conforms_type_object. unfold is_object_with.
  assert (Fields : forall o,
    (forall k, In k (map fst props) -> Get o k <> None)
    /\ Forall (fun ks => forall x, Get o (fst ks) = Some x ->
                                   conforms (snd ks) x = true) props
    <-> Forall (fun kp => exists v, Get o (fst kp) = Some v /\ snd kp v) fields).
  { intros o. induction H as [|ks kp ps fs [Hk Hv] _ IH].
    - split; [constructor | split; [intros k [] | constructor]].
    - split.
      + intros [R F]. inversion F as [|? ? A B]; subst. constructor.
        * destruct (Get o (fst ks)) as [x|] eqn:E.
          -- exists x. rewrite <- Hk. split; [exact E | apply Hv, A; reflexivity].
          -- exfalso. apply (R (fst ks)); [left; reflexivity | exact E].
        * apply IH. split; [|exact B]. intros k Hin. apply R. right. exact Hin.
      + intros F. inversion F as [|? ? [v [E Pv]] B]; subst.
        apply IH in B as [R' F']. rewrite <- Hk in E. split.
        * intros k [<- | Hin]; [congruence | apply R'; exact Hin].
        * constructor; [|exact F']. intros x Ex. apply Hv.
          rewrite E in Ex. injection Ex as <-. exact Pv. }
  split.
  - intros [o [-> [R [C F]]]]. split.
    + exists o. split; [reflexivity|]. apply Fields. split; assumption.
    + intros A o' k v E. injection E as <-. apply C. exact A.
  - intros [[o [-> F]] C]. exists o. apply Fields in F as [R F].
    split; [reflexivity|]. split; [exact R|]. split; [|exact F].
    intros A k v Hkv. exact (C A o k v eq_refl Hkv).
Qed.

(** X1: the validator of [/analyze] accepts exactly the objects of the
    shape the schema describes whose keys are all among the seven: the
    seven fields are present with values of their kinds, and no other
    top-level key occurs.  The nested objects may carry further keys. *)
Theorem validate_accepts_exactly_the_shape (j : json) :
  validate j = true
  <-> analysis_shape j
      /\ (forall o k v, j = JObj o -> In (k, v) o -> In k seven_keys).
Proof.
  assert (V : validate j = true <-> conforms schema j = true).
  { rewrite <- (first_error_conforms schema [] (js "#") j).
    unfold validate, validate_errors.
    destruct (first_error schema [] (js "#") j); split; congruence. }
  rewrite V. unfold analysis_shape, schema.
  match goal with
  | |- conforms (type_object ?ps ?req false) j = true <-> _ =>
      change req with (map fst ps);
      rewrite (conforms_object_with ps
                 [ (js "vocabulary",
                     is_array_of
                       (is_object_with
                          [ (js "word", is_string); (js "meaning", is_string) ]));
                   (js "title", is_string);
                   (js "main_idea",
                     is_object_with
                       [ (js "direct", is_string); (js "indirect", is_string) ]);
                   (js "facts_opinions_inferences",
                     is_array_of
                       (is_object_with
                          [ (js "type",
                              is_one_of [ js "Fact"; js "Opinion"; js "Inference" ]);
                            (js "text", is_string) ]));
                   (js "transitions",
                     is_array_of
                       (is_object_with
                          [ (js "src", is_string);
                            (js "dest", is_string);
                            (js "relation",
                              is_one_of [ js "logical"; js "contrastive";
                                          js "sequential"; js "causal" ]) ]));
                   (js "keywords", is_array_of is_string);
                   (js "purpose", is_string) ] false j)
  end.
  - split.
    + intros [S C]. split; [exact S|]. intros o k v E Hkv.
      exact (C eq_refl o k v E Hkv).
    + intros [S C]. split; [exact S|]. intros _ o k v E Hkv.
      exact (C o k v E Hkv).
  - assert (Open : forall ps fs v,
              Forall2 (fun ks kp => fst ks = fst kp
                         /\ forall v, conforms (snd ks) v = true <-> snd kp v)
                ps fs ->
              conforms (type_object ps (map fst ps) true) v = true
              <-> is_object_with fs v).
    { intros ps fs v F. rewrite (conforms_object_with ps fs true v F).
      split; [intros [S _]; exact S | intros S; split; [exact S | discriminate]]. }
    repeat (apply Forall2_cons || apply Forall2_nil);
      cbn [fst snd]; (split; [reflexivity|]); intros v;
      try apply conforms_type_string.
    + apply conforms_type_array. intros e.
      change [js "word"; js "meaning"] with
        (map fst [ (js "word", type_string); (js "meaning", type_string) ]).
      apply Open.
      repeat (apply Forall2_cons || apply Forall2_nil);
        cbn [fst snd]; (split; [reflexivity|]); intros w;
        apply conforms_type_string.
    + change [js "direct"; js "indirect"] with
        (map fst [ (js "direct", type_string); (js "indirect", type_string) ]).
      apply Open.
      repeat (apply Forall2_cons || apply Forall2_nil);
        cbn [fst snd]; (split; [reflexivity|]); intros w;
        apply conforms_type_string.
    + apply conforms_type_array. intros e.
      change [js "type"; js "text"] with
        (map fst [ (js "type",
                     string_enum [ js "Fact"; js "Opinion"; js "Inference" ]);
                   (js "text", type_string) ]).
      apply Open.
      repeat (apply Forall2_cons || apply Forall2_nil);
        cbn [fst snd]; (split; [reflexivity|]); intros w;
        first [ apply conforms_type_string | apply conforms_string_enum ].
    + apply conforms_type_array. intros e.
      change [js "src"; js "dest"; js "relation"] with
        (map fst [ (js "src", type_string); (js "dest", type_string);
                   (js "relation",
                     string_enum [ js "logical"; js "contrastive";
                                   js "sequential"; js "causal" ]) ]).
      apply Open.
      repeat (apply Forall2_cons || apply Forall2_nil);
        cbn [fst snd]; (split; [reflexivity|]); intros w;
        first [ apply conforms_type_string | apply conforms_string_enum ].
    + apply conforms_type_array. intros e. apply conforms_type_string.
Qed.

(** ** Every path of the handlers *)

(** Splits a goal about the handlers into their paths: the guard, the
    conversions of the fields, the model's answer, the search for the
    braces, the parse and the validation. *)
Ltac handler_cases :=
  unfold analyze, mindmap, solve, Minimal.analyze, generateWithModel,
    analyze_prompt, mindmap_prompt, solve_prompt;
  repeat first
    [ progress cbn [negb orb lift bind emit ret app try_catch]
    | match goal with
      | |- context [ToBoolean ?v] => destruct (ToBoolean v) eqn:?
      | |- context [combinedQuestions ?v] =>
          destruct (combinedQuestions v) eqn:?
      | |- context [ToString_value ?v] => destruct (ToString_value v) eqn:?
      | |- context [model_text ?h ?p] => destruct (model_text h p) eqn:?
      | |- context [((?a =? -1)%Z || (?b =? -1)%Z)%bool] =>
          destruct ((a =? -1)%Z || (b =? -1)%Z)%bool eqn:?
      | |- context [JSON_parse ?h ?t] => destruct (JSON_parse h t) eqn:?
      | |- context [validate ?j] => destruct (validate j) eqn:?
      end ].

(** X2: the status of a response is one of 200, 400, 422 and 500 on
    [/analyze], in both revisions, and one of 200, 400 and 500 on [/mindmap]
    and [/solve]: these two never answer 422. *)
Theorem status_codes_of_the_routes (host : Host) (body : object) :
  In (status (snd (analyze host body))) [200; 400; 422; 500]%Z
  /\ In (status (snd (Minimal.analyze host body))) [200; 400; 422; 500]%Z
  /\ In (status (snd (mindmap host body))) [200; 400; 500]%Z
  /\ In (status (snd (solve host body))) [200; 400; 500]%Z.
Proof.
  repeat split; handler_cases; cbn; auto 6.
Qed.

(** X3: a request makes at most one call to the model and at most one call
    to [JSON.parse], and calls [JSON.parse] only when it called the model;
    [/mindmap] never parses. *)
Theorem at_most_one_call_each (host : Host) (body : object) :
  let calls (t : list Event) :=
    (List.length (parse_calls t) <= List.length (model_calls t) <= 1)%nat in
  calls (fst (analyze host body))
  /\ calls (fst (Minimal.analyze host body))
  /\ calls (fst (solve host body))
  /\ calls (fst (mindmap host body))
  /\ parse_calls (fst (mindmap host body)) = [].
Proof.
  cbv zeta. repeat split; handler_cases; cbn; lia || reflexivity.
Qed.

(** X4: a handler writes to [console.error] exactly when it answers 500,
    and [/analyze] writes to [console.warn] exactly when it answers 422. *)
Theorem errors_are_logged_exactly_when_reported
  (host : Host) (body : object) :
  let logs_500 (r : list Event * Response) :=
    existsb is_console_error (fst r) = (status (snd r) =? 500)%Z in
  let logs_422 (r : list Event * Response) :=
    existsb is_console_warn (fst r) = (status (snd r) =? 422)%Z in
  logs_500 (analyze host body)
  /\ logs_500 (Minimal.analyze host body)
  /\ logs_500 (mindmap host body)
  /\ logs_500 (solve host body)
  /\ logs_422 (analyze host body)
  /\ logs_422 (Minimal.analyze host body).
Proof.
  cbv zeta. repeat split; handler_cases; reflexivity.
Qed.

(** X5: the first revision of [/analyze] and the later one make the same
    calls to the model and to [JSON.parse], log the same reply and answer
    with the same status; with status 200 or 422 the responses are equal.
    With status 500 the later revision puts the message under [error], the
    first one under [details], after a fixed [error]. *)
Theorem revisions_of_analyze_agree (host : Host) (body : object) :
  let old := Minimal.analyze host body in
  let new := analyze host body in
  model_calls (fst old) = model_calls (fst new)
  /\ parse_calls (fst old) = parse_calls (fst new)
  /\ logged_texts (fst old) = logged_texts (fst new)
  /\ status (snd old) = status (snd new)
  /\ (In (status (snd new)) [200; 422]%Z -> snd old = snd new)
  /\ (status (snd new) = 500%Z ->
      exists m,
        snd new = error_response 500 m
        /\ payload (snd old) =
             Json (JObj [ (js "error", JStr (js "Internal server error"));
                          (js "details", JStr m) ])).
Proof.
  cbv zeta. repeat split; handler_cases; cbn; try reflexivity;
    try (intros [H | [H | []]]; discriminate);
    try (intros H; discriminate);
    try (intros _; reflexivity);
    try (intros _; eexists; split; reflexivity).
Qed.

(** ** Trimming *)

Lemma trimStart_app_kept (l r : jsstring) (c : N) :
  isWhiteSpace c = false -> trimStart (l ++ c :: r) = trimStart l ++ c :: r.
Proof.
  intros H. induction l as [|x l IH]; cbn [app trimStart].
  - rewrite H. reflexivity.
  - destruct (isWhiteSpace x); [exact IH | reflexivity].
Qed.

Lemma trimStart_head (s t : jsstring) (c : N) :
  trimStart s = c :: t -> isWhiteSpace c = false.
Proof.
  induction s as [|x s IH]; cbn [trimStart]; [discriminate|].
  destruct (isWhiteSpace x) eqn:E; [exact IH|].
  intros H. injection H as <- _. exact E.
Qed.

Lemma trimStart_fixed (s : jsstring) (c : N) :
  isWhiteSpace c = false -> trimStart (c :: s) = c :: s.
Proof. intros H. cbn [trimStart]. rewrite H. reflexivity. Qed.

Lemma trimStart_idempotent (s : jsstring) :
  trimStart (trimStart s) = trimStart s.
Proof.
  destruct (trimStart s) as [|c t] eqn:E; [reflexivity|].
  apply trimStart_fixed. exact (trimStart_head s t c E).
Qed.

Lemma trimEnd_cons_kept (s : jsstring) (c : N) :
  isWhiteSpace c = false -> trimEnd (c :: s) = c :: trimEnd s.
Proof.
  intros H. unfold trimEnd. cbn [rev].
  rewrite (trimStart_app_kept (rev s) [] c H), rev_app_distr. reflexivity.
Qed.

Lemma trimEnd_idempotent (s : jsstring) : trimEnd (trimEnd s) = trimEnd s.
Proof.
  unfold trimEnd. rewrite rev_involutive, trimStart_idempotent. reflexivity.
Qed.

Lemma trim_idempotent (s : jsstring) : trim (trim s) = trim s.
Proof.
  unfold trim. destruct (trimStart s) as [|c t] eqn:E; [reflexivity|].
  pose proof (trimStart_head s t c E) as H.
  rewrite (trimEnd_cons_kept t c H), (trimStart_fixed _ c H),
    (trimEnd_cons_kept _ c H), trimEnd_idempotent. reflexivity.
Qed.

(** What [trim] removes is white space, before and after what it keeps. *)
Lemma trimStart_split (s : jsstring) :
  exists a, s = a ++ trimStart s /\ forallb isWhiteSpace a = true.
Proof.
  induction s as [|c s [a [E A]]]; [exists []; split; reflexivity|].
  cbn [trimStart]. destruct (isWhiteSpace c) eqn:W.
  - exists (c :: a). split; [cbn [app]; f_equal; exact E|].
    cbn [forallb]. rewrite W, A. reflexivity.
  - exists []. split; reflexivity.
Qed.

Lemma trim_split (s : jsstring) :
  exists a b,
    s = a ++ trim s ++ b
    /\ forallb isWhiteSpace a = true /\ forallb isWhiteSpace b = true.
Proof.
  destruct (trimStart_split s) as [a [E A]].
  destruct (trimStart_split (rev (trimStart s))) as [b [E' B]].
  exists a, (rev b). split; [|split; [exact A|]].
  - unfold trim, trimEnd. rewrite <- rev_app_distr, <- E', rev_involutive.
    exact E.
  - rewrite forallb_forall in *. intros x Hx. apply B, in_rev. exact Hx.
Qed.

Lemma trim_ends (s : jsstring) :
  (forall c t, trim s = c :: t -> isWhiteSpace c = false)
  /\ (forall l c, trim s = l ++ [c] -> isWhiteSpace c = false).
Proof.
  split.
  - intros c t E. rewrite <- trim_idempotent in E. unfold trim at 1 in E.
    destruct (trimStart (trim s)) as [|x u] eqn:T; [discriminate|].
    pose proof (trimStart_head _ _ _ T) as H.
    rewrite (trimEnd_cons_kept u x H) in E. injection E as <- _. exact H.
  - intros l c E. unfold trim, trimEnd in E.
    apply (f_equal (@rev N)) in E.
    rewrite rev_involutive, rev_app_distr in E. cbn [rev app] in E.
    exact (trimStart_head _ _ _ E).
Qed.

(** X6: [generateWithModel] calls the model once with the prompt it is
    given; the text it returns is the model's text without white space at
    either end, so that trimming it again changes nothing, and an error of
    the model is passed on as it is. *)
Theorem generateWithModel_returns_trimmed_text
  (host : Host) (prompt : jsstring) :
  fst (generateWithModel host prompt) = [ generateContent prompt ]
  /\ match model_text host prompt with
     | Throw m => snd (generateWithModel host prompt) = Throw m
     | Ok r =>
         exists a b,
           snd (generateWithModel host prompt) = Ok (trim r)
           /\ r = a ++ trim r ++ b
           /\ forallb isWhiteSpace a = true
           /\ forallb isWhiteSpace b = true
           /\ trim (trim r) = trim r
           /\ (forall c t, trim r = c :: t -> isWhiteSpace c = false)
           /\ (forall l c, trim r = l ++ [c] -> isWhiteSpace c = false)
     end.
Proof.
  unfold generateWithModel. cbn [emit lift bind ret].
  destruct (model_text host prompt) as [r|m]; cbn [fst snd app].
  - split; [reflexivity|].
    destruct (trim_split r) as [a [b [E [A B]]]]. exists a, b.
    repeat split; try assumption.
    + apply trim_idempotent.
    + apply trim_ends.
    + apply trim_ends.
  - split; reflexivity.
Qed.

(** ** Occurrences *)

Lemma indexOf_from_absent (p s : jsstring) (i : Z) :
  (0 <= i)%Z ->
  (indexOf_from p s i = (-1)%Z
   <-> forall n, startsWith p (skipn n s) = false).
Proof.
  revert i; induction s as [|c t IH]; intros i Hi; cbn [indexOf_from].
  - destruct (startsWith p []) eqn:E.
    + split; [lia | intros A; specialize (A 0%nat); cbn in A; congruence].
    + split; [|reflexivity]. intros _ n. rewrite skipn_nil. exact E.
  - destruct (startsWith p (c :: t)) eqn:E.
    + split; [lia | intros A; specialize (A 0%nat); cbn in A; congruence].
    + rewrite (IH (i + 1)%Z) by lia. split.
      * intros A [|n]; [exact E | apply A].
      * intros A n. apply (A (S n)).
Qed.

Lemma occurs_iff_In (x : N) (s : jsstring) :
  (exists n, startsWith [x] (skipn n s) = true) <-> In x s.
Proof.
  split.
  - intros [n H]. apply startsWith_iff in H as [r E].
    rewrite <- (firstn_skipn n s), E. apply in_or_app. right. left. reflexivity.
  - intros H. apply in_split in H as [l1 [l2 ->]]. exists (List.length l1).
    rewrite skipn_app, skipn_all, Nat.sub_diag. cbn [app skipn startsWith].
    rewrite N.eqb_refl. reflexivity.
Qed.

Lemma indexOf_found_iff_In (x : N) (s : jsstring) :
  indexOf s [x] <> (-1)%Z <-> In x s.
Proof.
  unfold indexOf. split.
  - intros H.
    destruct (indexOf_from_first [x] s 0 ltac:(lia) H) as [n [_ [_ [F _]]]].
    apply occurs_iff_In. exists n. exact F.
  - intros H A. apply occurs_iff_In in H as [n F].
    pose proof (proj1 (indexOf_from_absent [x] s 0 ltac:(lia)) A n) as B.
    congruence.
Qed.

Lemma lastIndexOf_found_iff_In (x : N) (s : jsstring) :
  lastIndexOf s [x] <> (-1)%Z <-> In x s.
Proof.
  unfold lastIndexOf. rewrite <- occurs_iff_In.
  destruct (lastIndexOf_from_last [x] s 0 ltac:(lia))
    as [[E A] | [n [E [L [F A]]]]].
  - rewrite E. split; [congruence|]. intros [n F].
    destruct (Nat.le_gt_cases n (List.length s)) as [Ln|Ln].
    + rewrite (A n Ln) in F. discriminate.
    + rewrite skipn_all2 in F by lia. discriminate.
  - rewrite E. split; [intros _; exists n; exact F | lia].
Qed.

(** A text without the marker [```] is left as it is. *)
Lemma replace_nothing (lang s : jsstring) (i : Z) :
  (0 <= i)%Z ->
  indexOf_from fence s i = (-1)%Z ->
  replace_all [fence ++ lang; fence] 0 s = s.
Proof.
  revert i; induction s as [|c t IH]; intros i Hi H; [reflexivity|].
  cbn [indexOf_from] in H. destruct (startsWith fence (c :: t)) eqn:E; [lia|].
  rewrite (replace_keep lang c t E). f_equal. apply (IH (i + 1)%Z); [lia | exact H].
Qed.

Lemma no_fence_inside (a m b : jsstring) :
  indexOf (a ++ m ++ b) fence = (-1)%Z -> indexOf m fence = (-1)%Z.
Proof.
  unfold indexOf. rewrite !indexOf_from_absent by lia. intros A n.
  destruct (startsWith fence (skipn n m)) eqn:E; [|reflexivity].
  apply startsWith_iff in E as [r E].
  specialize (A (List.length a + n)%nat).
  rewrite skipn_app, skipn_all2 in A by lia.
  replace (List.length a + n - List.length a)%nat with n in A by lia.
  cbn [app] in A.
  destruct (Nat.le_gt_cases n (List.length m)) as [L|L].
  - rewrite skipn_app, E in A.
    rewrite <- app_assoc, (startsWith_app fence [] (r ++ _)) in A. discriminate.
  - rewrite skipn_all2 in E by lia. discriminate.
Qed.

(** X7: cleaning is idempotent: the cleaned text of [/analyze] and
    [/solve], and the body [/mindmap] sends, come out unchanged when they
    are cleaned again. *)
Theorem cleaning_is_idempotent (reply : jsstring) :
  cleanText_of (cleanText_of reply) = cleanText_of reply
  /\ cleanHTML_of (cleanHTML_of reply) = cleanHTML_of reply.
Proof.
  assert (G : forall lang s,
             trim (replace_all [fence ++ lang; fence] 0
                     (trim (trim (replace_all [fence ++ lang; fence] 0 s))))
             = trim (replace_all [fence ++ lang; fence] 0 s)).
  { intros lang s. rewrite trim_idempotent.
    destruct (trim_split (replace_all [fence ++ lang; fence] 0 s))
      as [a [b [E _]]].
    pose proof (replace_no_fence lang s 0 0) as N.
    fold (indexOf (replace_all [fence ++ lang; fence] 0 s) fence) in N.
    rewrite E in N. apply no_fence_inside in N.
    rewrite (replace_nothing lang _ 0 ltac:(lia) N). apply trim_idempotent. }
  split.
  - exact (G (js "json") (trim reply)).
  - exact (G (js "html") (trim reply)).
Qed.

Lemma In_trim (x : N) (s : jsstring) : In x (trim s) -> In x s.
Proof.
  intros H. destruct (trim_split s) as [a [b [E _]]]. rewrite E.
  apply in_or_app. right. apply in_or_app. left. exact H.
Qed.

(** X8: a reply without any backtick is only trimmed, by the JSON routes
    and by [/mindmap] alike. *)
Theorem reply_without_backticks_is_only_trimmed (reply : jsstring) :
  no_backtick reply = true ->
  cleanText_of reply = trim reply /\ cleanHTML_of reply = trim reply.
Proof.
  intros H.
  assert (T : no_backtick (trim reply) = true).
  { unfold no_backtick in *. rewrite forallb_forall in *.
    intros x Hx. apply H, In_trim, Hx. }
  unfold cleanText_of, cleanHTML_of, replace_json_fences, replace_html_fences.
  pose proof (replace_plain (js "json") (trim reply) [] T) as J.
  pose proof (replace_plain (js "html") (trim reply) [] T) as K.
  rewrite app_nil_r in J, K. cbn [replace_all] in J, K. rewrite app_nil_r in J, K.
  change [fence_json; fence] with [fence ++ js "json"; fence].
  change [fence_html; fence] with [fence ++ js "html"; fence].
  rewrite J, K, trim_idempotent. split; reflexivity.
Qed.

Lemma reply_without_backticks_is_only_trimmed_witness :
  no_backtick (jsq "  {'a': 1}  ") = true
  /\ cleanText_of (jsq "  {'a': 1}  ") = jsq "{'a': 1}"
  /\ cleanHTML_of (jsq "  {'a': 1}  ") = jsq "{'a': 1}".
Proof.
  split; [reflexivity|].
  exact (reply_without_backticks_is_only_trimmed (jsq "  {'a': 1}  ") eq_refl).
Defined.

(** ** The braces *)

Lemma braces_found_iff_In (cleanText : jsstring) :
  braces_found cleanText = true <-> In 123%N cleanText /\ In 125%N cleanText.
Proof.
  unfold braces_found. rewrite negb_true_iff, orb_false_iff, !Z.eqb_neq.
  change (js "{") with [123%N]. change (js "}") with [125%N].
  rewrite indexOf_found_iff_In, lastIndexOf_found_iff_In. tauto.
Qed.

(** X9: once the model has answered, a JSON route answers 400 "No valid
    JSON found" exactly when the cleaned reply has no [{] or has no [}]. *)
Theorem no_json_found_iff_a_brace_is_missing
  (route : JsonRoute) (host : Host) (body : object) (r : jsstring) :
  model_replies route host body r ->
  (snd (handle route host body) = error_response 400 (js "No valid JSON found")
   <-> ~ (In 123%N (cleanText_of r) /\ In 125%N (cleanText_of r))).
Proof.
  intros H. rewrite <- braces_found_iff_In.
  destruct (json_route_replied route host body r H) as [pre [label [_ E]]].
  rewrite E. destruct (braces_found (cleanText_of r)).
  - split; [|congruence].
    destruct (JSON_parse host _) as [parsed|m]; [|discriminate].
    destruct route; [destruct (validate parsed)|]; discriminate.
  - split; [congruence | reflexivity].
Qed.

Lemma no_json_found_iff_a_brace_is_missing_witness :
  let reply := js "I cannot analyse this } sorry" in
  let host := Mock.host (Ok reply) [] in
  model_replies Analyze host Mock.passage_body reply
  /\ ~ (In 123%N (cleanText_of reply) /\ In 125%N (cleanText_of reply))
  /\ snd (analyze host Mock.passage_body) =
       error_response 400 (js "No valid JSON found").
Proof.
  intros reply host.
  assert (H : model_replies Analyze host Mock.passage_body reply).
  { exists (js "Some text."). repeat split. }
  pose proof (no_json_found_iff_a_brace_is_missing Analyze host
                Mock.passage_body reply H) as [A B].
  split; [exact H|]. split; [apply A | ]; reflexivity.
Defined.

(** X10: when the last [}] of the cleaned reply stands before its first
    [{], the JSON routes hand the empty text to [JSON.parse], and answer 500
    with the message of the error it throws on the empty text. *)
Theorem closing_brace_before_opening_brace
  (route : JsonRoute) (host : Host) (body : object) (r m : jsstring) :
  model_replies route host body r ->
  braces_found (cleanText_of r) = true ->
  (lastIndexOf (cleanText_of r) (js "}") < indexOf (cleanText_of r) (js "{"))%Z ->
  JSON_parse host [] = Throw m ->
  parse_calls (fst (handle route host body)) = [ [] ]
  /\ snd (handle route host body) = error_response 500 m.
Proof.
  intros H B L P.
  assert (S : json_slice (cleanText_of r) = []).
  { destruct (json_slice_inclusive (cleanText_of r) B)
      as [n [k [E1 [E2 [_ [_ [_ [_ E3]]]]]]]].
    rewrite E3. replace (k + 1 - n)%nat with 0%nat by lia. reflexivity. }
  split.
  - rewrite (json_route_parse_calls route host body r H), B, S. reflexivity.
  - destruct (json_route_replied route host body r H) as [pre [label [_ E]]].
    rewrite E, B, S, P. reflexivity.
Qed.

Lemma closing_brace_before_opening_brace_witness :
  let reply := js "} and then {" in
  let host := Mock.host (Ok reply) [] in
  model_replies Solve host Mock.questions_body reply
  /\ parse_calls (fst (solve host Mock.questions_body)) = [ [] ]
  /\ snd (solve host Mock.questions_body) =
       error_response 500 (js "Unexpected end of JSON input").
Proof.
  intros reply host.
  assert (H : model_replies Solve host Mock.questions_body reply).
  { exists (js "Some text."). split; [reflexivity|]. split; [reflexivity|].
    exists (Some (JStr (js "1. What is X?" ++ LF ++ js "2. Why Y?"))).
    exists (js "1. What is X?" ++ LF ++ js "2. Why Y?").
    repeat split. }
  split; [exact H|].
  exact (closing_brace_before_opening_brace Solve host Mock.questions_body
           reply (js "Unexpected end of JSON input") H eq_refl
           ltac:(vm_compute; reflexivity) eq_refl).
Defined.

(** X11: when the first [{] does not come after the last [}], the text
    handed to [JSON.parse] begins with that [{] and ends with that [}], and
    what stands between them is what the cleaned reply has between the two
    positions. *)
Theorem parsed_text_spans_the_braces
  (route : JsonRoute) (host : Host) (body : object) (r : jsstring) :
  model_replies route host body r ->
  braces_found (cleanText_of r) = true ->
  (indexOf (cleanText_of r) (js "{") <= lastIndexOf (cleanText_of r) (js "}"))%Z ->
  exists before inner after,
    cleanText_of r = before ++ js "{" ++ inner ++ js "}" ++ after
    /\ Z.of_nat (List.length before) = indexOf (cleanText_of r) (js "{")
    /\ (Z.of_nat (List.length before) + 1 + Z.of_nat (List.length inner))%Z
       = lastIndexOf (cleanText_of r) (js "}")
    /\ parse_calls (fst (handle route host body)) =
         [ js "{" ++ inner ++ js "}" ].
Proof.
  intros H B L.
  rewrite (json_route_parse_calls route host body r H), B.
  destruct (json_slice_inclusive (cleanText_of r) B)
    as [n [k [E1 [E2 [F1 [_ [F2 [_ E3]]]]]]]].
  set (c := cleanText_of r) in *. rewrite E1, E2 in *.
  change (js "{") with [123%N] in *. change (js "}") with [125%N] in *.
  apply startsWith_iff in F1 as [r1 G1]. apply startsWith_iff in F2 as [r2 G2].
  cbn [app] in G1, G2.
  assert (Nk : (n < k)%nat).
  { destruct (Nat.eq_dec n k) as [->|]; [|lia]. rewrite G1 in G2. discriminate. }
  assert (G3 : skipn (k - n - 1) r1 = 125%N :: r2).
  { rewrite <- G2. replace k with ((k - n - 1) + S n)%nat at 2 by lia.
    rewrite <- skipn_skipn.
    replace (skipn (S n) c) with r1; [reflexivity|].
    replace (S n) with (1 + n)%nat by lia. rewrite <- skipn_skipn, G1. reflexivity. }
  exists (firstn n c), (firstn (k - n - 1) r1), r2.
  assert (Ln : List.length (firstn n c) = n).
  { apply firstn_length_le.
    assert (X : (List.length (skipn n c) > 0)%nat) by (rewrite G1; simpl; lia).
    rewrite length_skipn in X. lia. }
  assert (Li : List.length (firstn (k - n - 1) r1) = (k - n - 1)%nat).
  { apply firstn_length_le.
    assert (X : (List.length (skipn (k - n - 1) r1) > 0)%nat)
      by (rewrite G3; simpl; lia).
    rewrite length_skipn in X. lia. }
  assert (R1 : r1 = firstn (k - n - 1) r1 ++ 125%N :: r2).
  { rewrite <- G3. symmetry. apply firstn_skipn. }
  repeat split.
  - rewrite <- (firstn_skipn n c) at 1. rewrite G1. cbn [app].
    rewrite R1 at 1. reflexivity.
  - rewrite Ln. reflexivity.
  - rewrite Ln, Li. lia.
  - rewrite E3, G1. replace (k + 1 - n)%nat with (S (k - n))%nat by lia.
    cbn [firstn app]. do 2 f_equal. rewrite R1 at 1.
    rewrite firstn_app, Li, firstn_firstn.
    replace (Nat.min (k - n) (k - n - 1)) with (k - n - 1)%nat by lia.
    replace (k - n - (k - n - 1))%nat with 1%nat by lia. reflexivity.
Qed.

Lemma parsed_text_spans_the_braces_witness :
  let reply := jsq "ok {'a':{'b':2}} bye" in
  let host := Mock.host (Ok reply) [] in
  model_replies Analyze host Mock.passage_body reply
  /\ exists before inner after,
       cleanText_of reply = before ++ js "{" ++ inner ++ js "}" ++ after
       /\ Z.of_nat (List.length before) = indexOf (cleanText_of reply) (js "{")
       /\ (Z.of_nat (List.length before) + 1 + Z.of_nat (List.length inner))%Z
          = lastIndexOf (cleanText_of reply) (js "}")
       /\ parse_calls (fst (analyze host Mock.passage_body)) =
            [ js "{" ++ inner ++ js "}" ].
Proof.
  intros reply host.
  assert (H : model_replies Analyze host Mock.passage_body reply).
  { exists (js "Some text."). repeat split. }
  split; [exact H|].
  exact (parsed_text_spans_the_braces Analyze host Mock.passage_body reply H
           eq_refl ltac:(vm_compute; discriminate)).
Defined.

(** ** Failures before and in the call to the model *)

Lemma mindmap_model_failed (host : Host) (body : object) (p m : jsstring) :
  ToBoolean (Get body (js "passage")) = true ->
  ToString_value (Get body (js "passage")) = Ok p ->
  model_text host (mindmap_prompt host p) = Throw m ->
  mindmap host body =
    ([ generateContent (mindmap_prompt host p);
       console_error (cross_mark ++ js " /mindmap error:") (LogError m) ],
     error_response 500 m).
Proof.
  intros Ht Hp Hr. unfold mindmap, generateWithModel.
  rewrite Ht, Hp. cbn [negb lift bind emit ret app].
  rewrite Hr. reflexivity.
Qed.

(** X12: when the call to the model fails, every route answers 500 with
    the message of the error, writes it to [console.error] and does nothing
    else: no retry, no parse. *)
Theorem upstream_failure_is_reported_once
  (host : Host) (body : object) (p q m : jsstring) (combined : value) :
  ToBoolean (Get body (js "passage")) = true ->
  ToString_value (Get body (js "passage")) = Ok p ->
  (model_text host (analyze_prompt host p) = Throw m ->
   analyze host body =
     ([ generateContent (analyze_prompt host p);
        console_error (cross_mark ++ js " /analyze error:") (LogError m) ],
      error_response 500 m))
  /\ (model_text host (mindmap_prompt host p) = Throw m ->
      mindmap host body =
        ([ generateContent (mindmap_prompt host p);
           console_error (cross_mark ++ js " /mindmap error:") (LogError m) ],
         error_response 500 m))
  /\ (ToBoolean (Get body (js "questions")) = true ->
      combinedQuestions (Get body (js "questions")) = Ok combined ->
      ToString_value combined = Ok q ->
      model_text host (solve_prompt host p q) = Throw m ->
      solve host body =
        ([ generateContent (solve_prompt host p q);
           console_error (cross_mark ++ js " /solve error:") (LogError m) ],
         error_response 500 m)).
Proof.
  intros Ht Hp. split; [|split].
  - apply analyze_model_failed; assumption.
  - apply mindmap_model_failed; assumption.
  - intros Hq Hc Hs. apply (solve_model_failed host body p Ht Hp q combined Hq Hc Hs).
Qed.

Lemma upstream_failure_is_reported_once_witness :
  let host := Mock.host (Throw (js "fetch failed")) [] in
  ToBoolean (Get Mock.passage_body (js "passage")) = true
  /\ status (snd (analyze host Mock.passage_body)) = 500%Z
  /\ snd (mindmap host Mock.passage_body) =
       error_response 500 (js "fetch failed").
Proof.
  intros host.
  pose proof (upstream_failure_is_reported_once host Mock.passage_body
                (js "Some text.") [] (js "fetch failed") None
                eq_refl eq_refl) as [A [B _]].
  split; [reflexivity|]. split.
  - rewrite (A eq_refl). reflexivity.
  - rewrite (B eq_refl). reflexivity.
Defined.

(** X13: a [passage] that passes the guard but cannot be converted to text
    (an object with a key [toString] is one) makes [/analyze] and
    [/mindmap] answer 500 with the message of the conversion error, and
    [/solve] answer 500 when its [questions] pass the guard; the model is
    not called. *)
Theorem unconvertible_passage_is_500
  (host : Host) (body : object) (m : jsstring) :
  ToBoolean (Get body (js "passage")) = true ->
  ToString_value (Get body (js "passage")) = Throw m ->
  analyze host body =
    ([ console_error (cross_mark ++ js " /analyze error:") (LogError m) ],
     error_response 500 m)
  /\ mindmap host body =
       ([ console_error (cross_mark ++ js " /mindmap error:") (LogError m) ],
        error_response 500 m)
  /\ (ToBoolean (Get body (js "questions")) = true ->
      status (snd (solve host body)) = 500%Z
      /\ model_calls (fst (solve host body)) = []).
Proof.
  intros Ht Hp. split; [|split].
  - unfold analyze. rewrite Ht, Hp. reflexivity.
  - unfold mindmap. rewrite Ht, Hp. reflexivity.
  - intros Hq. unfold solve. rewrite Ht, Hq. cbn [negb orb].
    destruct (combinedQuestions (Get body (js "questions"))) as [c|m'];
      cbn [lift bind]; [|split; reflexivity].
    rewrite Hp. split; reflexivity.
Qed.

Lemma unconvertible_passage_is_500_witness :
  let body := [ (js "passage", JObj [ (js "toString", JNull) ]) ] in
  ToBoolean (Get body (js "passage")) = true
  /\ ToString_value (Get body (js "passage")) = Throw TypeError_primitive
  /\ snd (analyze (Mock.host (Ok []) []) body) =
       error_response 500 (js "Cannot convert object to primitive value").
Proof.
  intros body.
  pose proof (unconvertible_passage_is_500 (Mock.host (Ok []) []) body
                TypeError_primitive eq_refl eq_refl) as [A _].
  split; [reflexivity|]. split; [reflexivity|]. rewrite A. reflexivity.
Defined.

(** ** What is returned on success *)

(** X14: when [JSON.parse] returns a value, [/solve] answers 200 with that
    value, whatever it is; [/analyze] answers 200 with that value when the
    validator accepts it, and 422 otherwise. *)
Theorem parsed_value_is_returned_as_it_is
  (route : JsonRoute) (host : Host) (body : object) (r : jsstring)
  (parsed : json) :
  model_replies route host body r ->
  braces_found (cleanText_of r) = true ->
  JSON_parse host (json_slice (cleanText_of r)) = Ok parsed ->
  match route with
  | Solve =>
      snd (solve host body) = {| status := 200; payload := Json parsed |}
  | Analyze =>
      if validate parsed then
        snd (analyze host body) = {| status := 200; payload := Json parsed |}
      else status (snd (analyze host body)) = 422%Z
  end.
Proof.
  intros H B P.
  destruct (json_route_replied route host body r H) as [pre [label [_ E]]].
  rewrite B, P in E. destruct route; cbn [handle] in E; rewrite E.
  - destruct (validate parsed); reflexivity.
  - reflexivity.
Qed.

Lemma parsed_value_is_returned_as_it_is_witness :
  let reply := jsq "{'answer': 42}" in
  let parsed := JObj [ (js "answer", JNum (js "42")) ] in
  let host := Mock.host (Ok reply) [ (reply, parsed) ] in
  model_replies Solve host Mock.questions_body reply
  /\ validate parsed = false
  /\ snd (solve host Mock.questions_body) =
       {| status := 200; payload := Json parsed |}.
Proof.
  intros reply parsed host.
  assert (H : model_replies Solve host Mock.questions_body reply).
  { exists (js "Some text."). split; [reflexivity|]. split; [reflexivity|].
    exists (Some (JStr (js "1. What is X?" ++ LF ++ js "2. Why Y?"))).
    exists (js "1. What is X?" ++ LF ++ js "2. Why Y?").
    repeat split. }
  split; [exact H|]. split; [reflexivity|].
  exact (parsed_value_is_returned_as_it_is Solve host Mock.questions_body
           reply parsed H eq_refl eq_refl).
Defined.

(** ** The prompts *)

Lemma analyze_model_calls (host : Host) (body : object) (p : jsstring) :
  ToBoolean (Get body (js "passage")) = true ->
  ToString_value (Get body (js "passage")) = Ok p ->
  model_calls (fst (analyze host body)) = [ analyze_prompt host p ]
  /\ model_calls (fst (Minimal.analyze host body)) = [ analyze_prompt host p ]
  /\ model_calls (fst (mindmap host body)) = [ mindmap_prompt host p ].
Proof.
  intros Ht Hp. repeat split.
  all: unfold analyze, Minimal.analyze, mindmap, generateWithModel,
         analyze_prompt, mindmap_prompt;
       rewrite Ht, Hp; handler_cases; reflexivity.
Qed.

(** X15: when [passage] is a non-empty string, [/analyze], in both
    revisions, and [/mindmap] call the model once, with their template, an
    empty line, the line [Passage:] and the passage as it is. *)
Theorem passage_is_pasted_after_the_template
  (host : Host) (body : object) (p : jsstring) :
  Get body (js "passage") = Some (JStr p) ->
  p <> [] ->
  model_calls (fst (analyze host body)) =
    [ RC_ANALYSIS_PROMPT host ++ LF ++ LF ++ js "Passage:" ++ LF ++ p ]
  /\ model_calls (fst (Minimal.analyze host body)) =
       [ RC_ANALYSIS_PROMPT host ++ LF ++ LF ++ js "Passage:" ++ LF ++ p ]
  /\ model_calls (fst (mindmap host body)) =
       [ RC_MINDMAP_PROMPT host ++ LF ++ LF ++ js "Passage:" ++ LF ++ p ].
Proof.
  intros E Hp. apply analyze_model_calls; rewrite E.
  - destruct p; [congruence | reflexivity].
  - reflexivity.
Qed.

Lemma passage_is_pasted_after_the_template_witness :
  let host := Mock.host (Ok []) [] in
  Get Mock.passage_body (js "passage") = Some (JStr (js "Some text."))
  /\ model_calls (fst (mindmap host Mock.passage_body)) =
       [ js "Draw a mind map." ++ LF ++ LF ++ js "Passage:" ++ LF
         ++ js "Some text." ].
Proof.
  intros host. split; [reflexivity|].
  exact (proj2 (proj2 (passage_is_pasted_after_the_template host
                         Mock.passage_body (js "Some text.") eq_refl
                         ltac:(discriminate)))).
Defined.

Lemma number_questions_texts (i : N) (qs : list json) (texts : list jsstring) :
  Forall2 (fun q t => ToString q = Ok t) qs texts ->
  number_questions i qs = Ok (ordinal_lines (i + 1) texts).
Proof.
  intros H. revert i. induction H as [|q t qs texts Hq _ IH]; intros i;
    [reflexivity|].
  cbn [number_questions ordinal_lines]. rewrite Hq, IH.
  replace (N.succ i + 1)%N with (i + 1 + 1)%N by lia. reflexivity.
Qed.

Lemma number_questions_throws (i : N) (qs : list json) :
  Exists (fun q => exists m, ToString q = Throw m) qs ->
  exists m, number_questions i qs = Throw m.
Proof.
  intros H. revert i. induction H as [q qs [m Hq] | q qs _ IH]; intros i;
    cbn [number_questions].
  - rewrite Hq. exists m. reflexivity.
  - destruct (ToString q) as [t|m]; [|exists m; reflexivity].
    destruct (IH (N.succ i)) as [m ->]. exists m. reflexivity.
Qed.

(** X16: the entries of a non-empty [questions] array need not be
    strings: each is numbered with the text a template literal gives it
    ([null] for [null], the digits of a number).  When an entry cannot be
    converted to text, [/solve] answers 500 and does not call the model. *)
Theorem questions_of_any_kind_are_numbered
  (host : Host) (body : object) (p : jsstring) (qs : list json)
  (texts : list jsstring) :
  ToBoolean (Get body (js "passage")) = true ->
  ToString_value (Get body (js "passage")) = Ok p ->
  Get body (js "questions") = Some (JArr qs) ->
  qs <> [] ->
  (Forall2 (fun q t => ToString q = Ok t) qs texts ->
   model_calls (fst (solve host body)) =
     [ RC_THOUGHT_SOLVER_PROMPT host ++ LF ++ LF ++ js "Passage:" ++ LF ++ p
       ++ LF ++ LF ++ js "Questions:" ++ LF
       ++ join LF (ordinal_lines 1 texts) ])
  /\ (Exists (fun q => exists m, ToString q = Throw m) qs ->
      status (snd (solve host body)) = 500%Z
      /\ model_calls (fst (solve host body)) = []).
Proof.
  intros Ht Hp E Hqs. destruct qs as [|q0 qs]; [congruence|]. split.
  - intros F.
    apply (solve_model_calls host body p (join LF (ordinal_lines 1 texts))
             (Some (JStr (join LF (ordinal_lines 1 texts)))) Ht Hp).
    + rewrite E. reflexivity.
    + rewrite E. cbn [combinedQuestions].
      rewrite (number_questions_texts 0 (q0 :: qs) texts F). reflexivity.
    + reflexivity.
  - intros X. destruct (number_questions_throws 0 (q0 :: qs) X) as [m T].
    unfold solve. rewrite Ht, E. cbn [ToBoolean negb orb combinedQuestions].
    rewrite T. split; reflexivity.
Qed.

Lemma questions_of_any_kind_are_numbered_witness :
  let qs := [ JNull; JNum (js "7"); JArr [ JStr (js "a"); JStr (js "b") ] ] in
  let body := [ (js "passage", JStr (js "Some text.")); (js "questions", JArr qs) ] in
  let host := Mock.host (Ok []) [] in
  Forall2 (fun q t => ToString q = Ok t) qs [ js "null"; js "7"; js "a,b" ]
  /\ model_calls (fst (solve host body)) =
       [ js "Solve the questions." ++ LF ++ LF ++ js "Passage:" ++ LF
         ++ js "Some text." ++ LF ++ LF ++ js "Questions:" ++ LF
         ++ js "1. null" ++ LF ++ js "2. 7" ++ LF ++ js "3. a,b" ].
Proof.
  intros qs body host.
  assert (F : Forall2 (fun q t => ToString q = Ok t) qs
                [ js "null"; js "7"; js "a,b" ]).
  { repeat constructor. }
  split; [exact F|].
  exact (proj1 (questions_of_any_kind_are_numbered host body
                  (js "Some text.") qs [ js "null"; js "7"; js "a,b" ]
                  eq_refl eq_refl eq_refl ltac:(discriminate)) F).
Defined.

(** X17: an empty [questions] array passes the guard of [/solve], being
    truthy: the model is called with a prompt whose list of questions is
    empty. *)
Theorem empty_question_list_is_sent
  (host : Host) (body : object) (p : jsstring) :
  ToBoolean (Get body (js "passage")) = true ->
  ToString_value (Get body (js "passage")) = Ok p ->
  Get body (js "questions") = Some (JArr []) ->
  model_calls (fst (solve host body)) =
    [ RC_THOUGHT_SOLVER_PROMPT host ++ LF ++ LF ++ js "Passage:" ++ LF ++ p
      ++ LF ++ LF ++ js "Questions:" ++ LF ].
Proof.
  intros Ht Hp E.
  rewrite (solve_model_calls host body p [] (Some (JArr [])) Ht Hp).
  - unfold solve_prompt. rewrite !app_nil_r. reflexivity.
  - rewrite E. reflexivity.
  - rewrite E. reflexivity.
  - reflexivity.
Qed.

Lemma empty_question_list_is_sent_witness :
  let body := [ (js "passage", JStr (js "Some text.")); (js "questions", JArr []) ] in
  let host := Mock.host (Ok (jsq "{}")) [ (jsq "{}", JObj []) ] in
  Get body (js "questions") = Some (JArr [])
  /\ model_calls (fst (solve host body)) =
       [ js "Solve the questions." ++ LF ++ LF ++ js "Passage:" ++ LF
         ++ js "Some text." ++ LF ++ LF ++ js "Questions:" ++ LF ]
  /\ status (snd (solve host body)) = 200%Z.
Proof.
  intros body host. split; [reflexivity|]. split; [|reflexivity].
  exact (empty_question_list_is_sent host body (js "Some text.")
           eq_refl eq_refl eq_refl).
Defined.

(** ** What is sent and what is logged *)

(** X18: the body [/mindmap] sends with status 200 contains no [```] and
    has no white space at either end; the same holds of the text in which
    the JSON routes look for the braces. *)
Theorem cleaned_text_has_no_fence_and_no_margin (reply : jsstring) :
  let clean (s : jsstring) :=
    indexOf s fence = (-1)%Z
    /\ (forall c t, s = c :: t -> isWhiteSpace c = false)
    /\ (forall l c, s = l ++ [c] -> isWhiteSpace c = false) in
  clean (cleanHTML_of reply)
  /\ clean (cleanText_of reply)
  /\ (forall host body p,
        ToBoolean (Get body (js "passage")) = true ->
        ToString_value (Get body (js "passage")) = Ok p ->
        model_text host (mindmap_prompt host p) = Ok reply ->
        snd (mindmap host body) =
          {| status := 200; payload := Send (cleanHTML_of reply) |}).
Proof.
  cbv zeta.
  assert (G : forall lang s,
             indexOf (trim (replace_all [fence ++ lang; fence] 0 s)) fence
             = (-1)%Z).
  { intros lang s.
    destruct (trim_split (replace_all [fence ++ lang; fence] 0 s))
      as [a [b [E _]]].
    pose proof (replace_no_fence lang s 0 0) as N.
    fold (indexOf (replace_all [fence ++ lang; fence] 0 s) fence) in N.
    rewrite E in N. exact (no_fence_inside _ _ _ N). }
  split; [|split].
  - split; [exact (G (js "html") (trim reply)) | apply trim_ends].
  - split; [exact (G (js "json") (trim reply)) | apply trim_ends].
  - intros host body p Ht Hp H.
    rewrite (mindmap_replied host body p Ht Hp reply H). reflexivity.
Qed.

(** X19: when the model answers, a handler writes the answer, trimmed, to
    [console.log] once, before any cleaning; [/analyze] does so in both
    revisions. *)
Theorem reply_is_logged_once
  (host : Host) (body : object) (p r : jsstring) :
  ToBoolean (Get body (js "passage")) = true ->
  ToString_value (Get body (js "passage")) = Ok p ->
  (model_text host (analyze_prompt host p) = Ok r ->
   logged_texts (fst (analyze host body)) = [ trim r ]
   /\ logged_texts (fst (Minimal.analyze host body)) = [ trim r ])
  /\ (model_text host (mindmap_prompt host p) = Ok r ->
      logged_texts (fst (mindmap host body)) = [ trim r ])
  /\ (forall q combined,
        ToBoolean (Get body (js "questions")) = true ->
        combinedQuestions (Get body (js "questions")) = Ok combined ->
        ToString_value combined = Ok q ->
        model_text host (solve_prompt host p q) = Ok r ->
        logged_texts (fst (solve host body)) = [ trim r ]).
Proof.
  intros Ht Hp. split; [|split].
  - intros H. split.
    + rewrite (analyze_replied host body p Ht Hp r H). cbv zeta.
      destruct (braces_found (cleanText_of r)); [|reflexivity].
      destruct (JSON_parse host _) as [parsed|m]; [|reflexivity].
      destruct (validate parsed); reflexivity.
    + unfold Minimal.analyze. rewrite Ht, Hp. cbn [negb lift bind emit ret app].
      unfold analyze_prompt in H. rewrite H. handler_cases; reflexivity.
  - intros H. rewrite (mindmap_replied host body p Ht Hp r H). reflexivity.
  - intros q combined Hq Hc Hs H.
    rewrite (solve_replied host body p Ht Hp q combined Hq Hc Hs r H). cbv zeta.
    destruct (braces_found (cleanText_of r)); [|reflexivity].
    destruct (JSON_parse host _); reflexivity.
Qed.

Lemma reply_is_logged_once_witness :
  let host := Mock.host (Ok (js "  <p>x</p>  ")) [] in
  ToBoolean (Get Mock.passage_body (js "passage")) = true
  /\ logged_texts (fst (mindmap host Mock.passage_body)) = [ js "<p>x</p>" ].
Proof.
  intros host. split; [reflexivity|].
  exact (proj1 (proj2 (reply_is_logged_once host Mock.passage_body
                         (js "Some text.") (js "  <p>x</p>  ")
                         eq_refl eq_refl)) eq_refl).
Defined.
